(** * Zabbix host importer: a shallow embedding of [app.py]

    The Flask application reads an uploaded CSV of host names and IP
    addresses and, row by row, asks a Zabbix server (through [pyzabbix]) to
    register an SNMP-monitored host.  The Python functions are embedded as
    computations in a state-and-exception monad over a [World] that holds
    the module global [zabbix], the remote server, the log of remote
    requests issued so far and of those that failed, the upload folder, the
    flashed messages and the standard output. *)

From Stdlib Require Import ZArith Ascii String.
From stdpp Require Import gmap strings list fin_maps pretty.

Local Open Scope string_scope.
Local Open Scope list_scope.

(** ** Python values, exceptions and results *)

(** The exception classes that can reach the handlers of [app.py].  All of
    them derive from [Exception]; the payload is what [str(e)] prints. *)
Inductive exn :=
  | ZabbixAPIException (msg : string)
  | ConnectionError (msg : string)
  | IndexError (msg : string)
  | KeyError (msg : string)
  | ValueError (msg : string)
  | FileNotFoundError (msg : string).

Definition str (e : exn) : string :=
  match e with
  | ZabbixAPIException m | ConnectionError m | IndexError m
  | KeyError m | ValueError m | FileNotFoundError m => m
  end.

Inductive Res (A : Type) :=
  | Ok (a : A)
  | Raise (e : exn).
Arguments Ok {A} a.
Arguments Raise {A} e.

(** The values stored under the string keys of [interface['details']]. *)
Inductive Value :=
  | VNone
  | VStr (s : string)
  | VInt (z : Z).

(** ** Configuration constants *)

Definition ZABBIX_URL : string := "http://10.3.5.34/zabbix/api_jsonrpc.php".
Definition ZABBIX_USER : string := "Admin".
Definition ZABBIX_PASSWORD : string := "zabbix".
Definition UPLOAD_FOLDER : string := "uploads".

(** ** Data exchanged with the Zabbix API *)

(** A [pyzabbix.ZabbixAPI] object: the endpoint and the session token, which
    is the empty string until [login] stores the one the server returns. *)
Record ZabbixAPI := mkZabbixAPI { url : string; auth : string }.

Record Template := mkTemplate { templateid : string; tpl_name : string }.
Record Host := mkHost { hostid : string; host : string }.
Record HostGroup := mkHostGroup { groupid : string; grp_name : string }.

Record Interface := mkInterface {
  if_type : Z;
  if_main : Z;
  if_useip : Z;
  if_ip : string;
  if_dns : string;
  if_port : string;
  if_details : gmap string Value }.

Record CreateParams := mkCreateParams {
  cp_host : string;
  cp_name : string;
  cp_interfaces : list Interface;
  cp_groups : list (option string);
  cp_templates : list string;
  cp_status : Z }.

(** One remote request, as [pyzabbix] sends it. *)
Inductive Call :=
  | CLogin (user password : string)
  | CApiVersion
  | CTemplateGet
  | CHostGet (hostname : string)
  | CHostCreate (params : CreateParams)
  | CHostgroupGet (filter_name : option string)
  | CHostgroupCreate (name : string).

Definition is_host_create (c : Call) : bool :=
  match c with CHostCreate _ => true | _ => false end.
Definition is_host_get (c : Call) : bool :=
  match c with CHostGet _ => true | _ => false end.

(** The Zabbix server is not part of the program: it is an interface.  [R]
    is the server's state; every method takes the session token of the
    handle it is called on (except the two that need none), may change the
    server and either answers or raises. *)
Record RemoteAPI (R : Type) := mkRemoteAPI {
  user_login : string -> string -> R -> Res string * R;
  apiinfo_version : R -> Res string * R;
  template_get : string -> R -> Res (list Template) * R;
  host_get : string -> string -> R -> Res (list Host) * R;
  host_create : string -> CreateParams -> R -> Res (list string) * R;
  hostgroup_get : string -> option string -> R -> Res (list HostGroup) * R;
  hostgroup_create : string -> string -> R -> Res (list string) * R }.
Arguments user_login {R} _ _ _ _.
Arguments apiinfo_version {R} _ _.
Arguments template_get {R} _ _ _.
Arguments host_get {R} _ _ _ _.
Arguments host_create {R} _ _ _ _.
Arguments hostgroup_get {R} _ _ _ _.
Arguments hostgroup_create {R} _ _ _ _.

(** ** The uploaded table and the form *)

(** What [pd.read_csv] returns: the header and the records, each record a
    list of cells in header order. *)
Record DataFrame := mkDataFrame {
  columns : list string;
  data : list (list string) }.

(** A row as [df.iterrows()] yields it: the cells labelled by the header. *)
Definition Row := list (string * string).

Definition iterrows (df : DataFrame) : list Row :=
  map (fun cells => zip (columns df) cells) (data df).

(** Library functions that [app.py] calls and does not define. *)
Record PyLib := mkPyLib {
  int_of_str : string -> option Z;
  read_csv : string -> Res DataFrame;
  secure_filename : string -> string }.

(** [request.form]: a multi-dict from field names to the submitted values. *)
Definition form_get (form : gmap string (list string)) (key : string)
    : option string :=
  match form !! key with
  | Some (v :: _) => Some v
  | _ => None
  end.

Definition form_get_default (form : gmap string (list string))
    (key default : string) : string :=
  match form_get form key with
  | Some v => v
  | None => default
  end.

Definition form_getlist (form : gmap string (list string)) (key : string)
    : list string :=
  match form !! key with
  | Some vs => vs
  | None => []
  end.

Record Upload := mkUpload { filename : string; content : string }.

Record Request := mkRequest {
  csv_file : option Upload;
  form : gmap string (list string) }.

(** The per-row result dictionary. *)
Record Outcome := mkOutcome {
  nome : string;
  ip : string;
  status : string;
  mensagem : string }.

(** What a view function returns: a redirect to an endpoint, the index page
    rendered with a batch summary, or a JSON body with its HTTP status. *)
Inductive JsonBody :=
  | JTemplates (items : list (string * string))
  | JObject (fields : list (string * string)).

Inductive Response :=
  | Redirect (endpoint : string)
  | Render (results : list Outcome) (success_count error_count : nat)
  | Json (body : JsonBody) (code : Z).

(** ** The world and the monad of views *)

Section World.
Context {R : Type}.

Record World := mkWorld {
  zabbix : option ZabbixAPI;
  remote : R;
  calls : list Call;
  failures : list (Call * exn);
  files : gmap string string;
  flashes : list (string * string);
  stdout : list string }.

Definition set_zabbix (z : option ZabbixAPI) (w : World) : World :=
  mkWorld z (remote w) (calls w) (failures w) (files w) (flashes w)
          (stdout w).
Definition set_files (fs : gmap string string) (w : World) : World :=
  mkWorld (zabbix w) (remote w) (calls w) (failures w) fs (flashes w)
          (stdout w).
Definition add_flash (m : string * string) (w : World) : World :=
  mkWorld (zabbix w) (remote w) (calls w) (failures w) (files w)
          (flashes w ++ [m]) (stdout w).
Definition add_stdout (line : string) (w : World) : World :=
  mkWorld (zabbix w) (remote w) (calls w) (failures w) (files w)
          (flashes w) (stdout w ++ [line]).

(** The world after the server answered request [c] with [res] and moved
    to state [r]: the request is logged, and so is its failure if it
    raised. *)
Definition answered {A} (c : Call) (res : Res A) (r : R) (w : World)
    : World :=
  mkWorld (zabbix w) r (calls w ++ [c])
          (match res with
           | Ok _ => failures w
           | Raise e => failures w ++ [(c, e)]
           end)
          (files w) (flashes w) (stdout w).

(** A computation runs in a world and ends in a value or in a raised
    exception; either way the effects performed so far stay. *)
Definition M (A : Type) : Type := World -> Res A * World.

Definition ret {A} (a : A) : M A := fun w => (Ok a, w).

Definition bind {A B} (m : M A) (k : A -> M B) : M B :=
  fun w => match m w with
           | (Ok a, w') => k a w'
           | (Raise e, w') => (Raise e, w')
           end.

Definition raise {A} (e : exn) : M A := fun w => (Raise e, w).

(** [try: m except Exception as e: h e] (and the bare [except:], since only
    [Exception]s are modelled). *)
Definition try_except {A} (m : M A) (h : exn -> M A) : M A :=
  fun w => match m w with
           | (Ok a, w') => (Ok a, w')
           | (Raise e, w') => h e w'
           end.
End World.
Arguments World : clear implicits.
Arguments M : clear implicits.

Notation "'let*' x ':=' m 'in' k" := (bind m (fun x => k))
  (at level 10, x name, m at level 100, k at level 200,
   format "'[v' 'let*'  x  ':='  m  'in' '/' k ']'").
Notation "m ';;' k" := (bind m (fun _ => k))
  (at level 100, k at level 200, right associativity).

(** ** String and table helpers *)

(** [s.endswith(suffix)]. *)
Definition endswith (s suffix : string) : bool :=
  String.prefix (String.string_of_list_ascii
                   (rev (String.list_ascii_of_string suffix)))
                (String.string_of_list_ascii
                   (rev (String.list_ascii_of_string s))).

(** [os.path.join(a, b)] for a relative [b]. *)
Definition path_join (a b : string) : string := a +:+ "/" +:+ b.

Fixpoint row_lookup (row : Row) (col : string) : option string :=
  match row with
  | [] => None
  | (c, v) :: rest => if decide (c = col) then Some v else row_lookup rest col
  end.

Definition required_columns : list string := ["nome"; "ip"].

(** [all(col in df.columns for col in required_columns)]. *)
Definition has_required_columns (df : DataFrame) : bool :=
  forallb (fun col => bool_decide (col ∈ columns df)) required_columns.

(** [sum(1 for r in results if r['status'] == 'success')]. *)
Definition count_success (results : list Outcome) : nat :=
  length (filter (fun r => status r = "success") results).

Definition version_value (snmp_version : option string) : Value :=
  match snmp_version with
  | Some v => VStr v
  | None => VNone
  end.

(** ** The application *)

Section App.
Context {R : Type}.
Variable api : RemoteAPI R.
Variable py : PyLib.

(** *** Primitive effects *)

(** A remote request: it is logged, then the server answers or raises. *)
Definition request {A} (c : Call) (f : R -> Res A * R) : M R A :=
  fun w => let (res, r') := f (remote w) in
           (res, answered c res r' w).

Definition lift_res {A} (r : Res A) : M R A := fun w => (r, w).

Definition flash (message category : string) : M R unit :=
  fun w => (Ok tt, add_flash (message, category) w).

Definition print (line : string) : M R unit :=
  fun w => (Ok tt, add_stdout line w).

Definition get_global : M R (option ZabbixAPI) :=
  fun w => (Ok (zabbix w), w).

Definition set_global (z : option ZabbixAPI) : M R unit :=
  fun w => (Ok tt, set_zabbix z w).

Definition file_save (path contents : string) : M R unit :=
  fun w => (Ok tt, set_files (<[path := contents]> (files w)) w).

Definition pd_read_csv (path : string) : M R DataFrame :=
  fun w => match files w !! path with
           | Some contents => (read_csv py contents, w)
           | None => (Raise (FileNotFoundError path), w)
           end.

Definition os_remove (path : string) : M R unit :=
  fun w => match files w !! path with
           | Some _ => (Ok tt, set_files (delete path (files w)) w)
           | None => (Raise (FileNotFoundError path), w)
           end.

Definition row_get (row : Row) (col : string) : M R string :=
  match row_lookup row col with
  | Some v => ret v
  | None => raise (KeyError col)
  end.

(** *** [get_zabbix_connection] *)

(** The global is bound to the fresh [ZabbixAPI] object before [login]
    runs; [login] then stores the token in that same object. *)
Definition get_zabbix_connection : M R (option ZabbixAPI) :=
  try_except
    (let* z := get_global in
     match z with
     | None =>
         set_global (Some (mkZabbixAPI ZABBIX_URL EmptyString)) ;;
         let* token := request (CLogin ZABBIX_USER ZABBIX_PASSWORD)
                         (user_login api ZABBIX_USER ZABBIX_PASSWORD) in
         set_global (Some (mkZabbixAPI ZABBIX_URL token)) ;;
         let* version := request CApiVersion (apiinfo_version api) in
         print ("Conectado ao Zabbix API versão " +:+ version)
     | Some _ => ret tt
     end ;;
     get_global)
    (fun e =>
       print ("Erro ao conectar ao Zabbix: " +:+ str e) ;;
       ret None).

(** *** [get_templates] *)

Definition get_templates : M R Response :=
  try_except
    (let* zapi := get_zabbix_connection in
     match zapi with
     | None =>
         ret (Json (JObject [("error",
                              "Não foi possível conectar ao Zabbix")]) 500)
     | Some z =>
         let* templates := request CTemplateGet
                             (template_get api (auth z)) in
         ret (Json (JTemplates
                      (map (fun t => (templateid t, tpl_name t)) templates))
                   200)
     end)
    (fun e => ret (Json (JObject [("error", str e)]) 500)).

(** *** [get_default_hostgroup] *)

Definition get_default_hostgroup (zapi : ZabbixAPI)
    : M R (option string) :=
  try_except
    (let* groups := request (CHostgroupGet (Some "Imported Hosts"))
                      (hostgroup_get api (auth zapi)
                         (Some "Imported Hosts")) in
     match groups with
     | g :: _ => ret (Some (groupid g))
     | [] =>
         let* result := request (CHostgroupCreate "Imported Hosts")
                          (hostgroup_create api (auth zapi)
                             "Imported Hosts") in
         match result with
         | gid :: _ => ret (Some gid)
         | [] => raise (IndexError "list index out of range")
         end
     end)
    (fun _ =>
       let* groups := request (CHostgroupGet None)
                        (hostgroup_get api (auth zapi) None) in
       ret (match groups with
            | g :: _ => Some (groupid g)
            | [] => None
            end)).

(** *** [create_host_in_zabbix] *)

(** [int(form_data.get('snmp_securitylevel', 0))]. *)
Definition securitylevel (form_data : gmap string (list string)) : Res Z :=
  match form_get form_data "snmp_securitylevel" with
  | None => Ok 0%Z
  | Some s =>
      match int_of_str py s with
      | Some n => Ok n
      | None => Raise (ValueError
                         ("invalid literal for int() with base 10: '"
                            +:+ s +:+ "'"))
      end
  end.

(** The block "Preparar interface SNMP" and "Configurar detalhes SNMP":
    the descriptor with its [details] dictionary filled by version. *)
Definition build_interface (ip : string) (snmp_version : option string)
    (form_data : gmap string (list string)) : Res Interface :=
  let details : gmap string Value :=
    <["bulk" := VInt 0]> (<["version" := version_value snmp_version]> ∅) in
  let interface d := mkInterface 2 1 1 ip EmptyString "161" d in
  if decide (snmp_version = Some "2") then
    Ok (interface
          (<["community" :=
               VStr (form_get_default form_data "snmp_community" "public")]>
             details))
  else if decide (snmp_version = Some "3") then
    let details :=
      <["securityname" :=
          VStr (form_get_default form_data "snmp_securityname" EmptyString)]>
        details in
    match securitylevel form_data with
    | Raise e => Raise e
    | Ok level =>
        let details := <["securitylevel" := VInt level]> details in
        let details :=
          <["authprotocol" :=
              VStr (form_get_default form_data "snmp_authprotocol" "0")]>
            details in
        let details :=
          <["authpassphrase" :=
              VStr (form_get_default form_data "snmp_authpassphrase"
                      EmptyString)]>
            details in
        let details :=
          <["privprotocol" :=
              VStr (form_get_default form_data "snmp_privprotocol" "0")]>
            details in
        let details :=
          <["privpassphrase" :=
              VStr (form_get_default form_data "snmp_privpassphrase"
                      EmptyString)]>
            details in
        let details :=
          <["contextname" :=
              VStr (form_get_default form_data "snmp_contextname"
                      EmptyString)]>
            details in
        Ok (interface details)
    end
  else Ok (interface details).

Definition make_create_params (hostname : string) (interface : Interface)
    (gid : option string) (template_ids : list string) : CreateParams :=
  mkCreateParams hostname hostname [interface] [gid] template_ids 0.

Definition create_host_in_zabbix (zapi : ZabbixAPI) (hostname ip : string)
    (template_ids : list string) (snmp_version : option string)
    (form_data : gmap string (list string)) : M R Outcome :=
  try_except
    (let* existing_host := request (CHostGet hostname)
                             (host_get api (auth zapi) hostname) in
     match existing_host with
     | _ :: _ =>
         ret (mkOutcome hostname ip "error"
                ("Host " +:+ hostname +:+ " já existe"))
     | [] =>
         let* interface :=
           lift_res (build_interface ip snmp_version form_data) in
         let* gid := get_default_hostgroup zapi in
         let create_params :=
           make_create_params hostname interface gid template_ids in
         let* result := request (CHostCreate create_params)
                          (host_create api (auth zapi) create_params) in
         match result with
         | hid :: _ =>
             ret (mkOutcome hostname ip "success"
                    ("Host criado com sucesso (ID: " +:+ hid +:+ ")"))
         | [] => raise (IndexError "list index out of range")
         end
     end)
    (fun e => ret (mkOutcome hostname ip "error" (str e))).

(** *** [import_hosts] *)

(** The loop "Processar cada host": one call of [create_host_in_zabbix]
    per row, its result appended to [results]. *)
Fixpoint import_loop (zapi : ZabbixAPI) (template_ids : list string)
    (snmp_version : option string) (form_data : gmap string (list string))
    (rows : list Row) (results : list Outcome) : M R (list Outcome) :=
  match rows with
  | [] => ret results
  | row :: rest =>
      let* hostname := row_get row "nome" in
      let* address := row_get row "ip" in
      let* result := create_host_in_zabbix zapi hostname address
                       template_ids snmp_version form_data in
      import_loop zapi template_ids snmp_version form_data rest
                  (results ++ [result])
  end.

Definition import_hosts (req : Request) : M R Response :=
  try_except
    (match csv_file req with
     | None =>
         flash "Nenhum arquivo enviado" "error" ;;
         ret (Redirect "index")
     | Some file =>
         if decide (filename file = EmptyString) then
           flash "Nenhum arquivo selecionado" "error" ;;
           ret (Redirect "index")
         else if negb (endswith (filename file) ".csv") then
           flash "Por favor, envie um arquivo CSV" "error" ;;
           ret (Redirect "index")
         else
           let filepath :=
             path_join UPLOAD_FOLDER (secure_filename py (filename file)) in
           file_save filepath (content file) ;;
           let* df := pd_read_csv filepath in
           if negb (has_required_columns df) then
             flash "O CSV deve conter as colunas: nome, ip" "error" ;;
             os_remove filepath ;;
             ret (Redirect "index")
           else
             let template_ids := form_getlist (form req) "templates[]" in
             let snmp_version := form_get (form req) "snmp_version" in
             match template_ids with
             | [] =>
                 flash "Selecione pelo menos um template" "error" ;;
                 os_remove filepath ;;
                 ret (Redirect "index")
             | _ :: _ =>
                 let* zapi := get_zabbix_connection in
                 match zapi with
                 | None =>
                     flash "Erro ao conectar ao Zabbix" "error" ;;
                     os_remove filepath ;;
                     ret (Redirect "index")
                 | Some zapi =>
                     let* results :=
                       import_loop zapi template_ids snmp_version
                                   (form req) (iterrows df) [] in
                     os_remove filepath ;;
                     let success_count := count_success results in
                     let error_count := length results - success_count in
                     ret (Render results success_count error_count)
                 end
             end
     end)
    (fun e =>
       flash ("Erro ao processar importação: " +:+ str e) "error" ;;
       ret (Redirect "index")).

(** *** [test_connection] *)

Definition test_connection : M R Response :=
  try_except
    (let* zapi := get_zabbix_connection in
     match zapi with
     | Some _ =>
         let* version := request CApiVersion (apiinfo_version api) in
         ret (Json (JObject [("status", "success");
                             ("message",
                              "Conectado ao Zabbix " +:+ version)]) 200)
     | None =>
         ret (Json (JObject [("status", "error");
                             ("message",
                              "Não foi possível conectar ao Zabbix")]) 500)
     end)
    (fun e =>
       ret (Json (JObject [("status", "error"); ("message", str e)]) 500)).
End App.

(** ** A reference server and library for running the application

    [Sim] is a small in-memory stand-in for the Zabbix server and for the
    library functions, used to run the views on concrete requests.  The
    general theorems below quantify over every [RemoteAPI] and [PyLib]; the
    stand-in only instantiates them. *)

Module Sim.
Record Server := mkServer {
  sv_password : string;
  sv_hosts : list Host;
  sv_groups : list HostGroup;
  sv_next_id : N;
  sv_may_create_group : bool;
  sv_faults : list bool }.

Definition token : string := "0424bd59b807674191e7d77572075f33".

Definition set_faults (fs : list bool) (s : Server) : Server :=
  mkServer (sv_password s) (sv_hosts s) (sv_groups s) (sv_next_id s)
           (sv_may_create_group s) fs.
Definition add_host (h : Host) (s : Server) : Server :=
  mkServer (sv_password s) (sv_hosts s ++ [h]) (sv_groups s)
           (N.succ (sv_next_id s)) (sv_may_create_group s) (sv_faults s).
Definition add_group (g : HostGroup) (s : Server) : Server :=
  mkServer (sv_password s) (sv_hosts s) (sv_groups s ++ [g])
           (N.succ (sv_next_id s)) (sv_may_create_group s) (sv_faults s).

(** Each request consumes the head of the fault script; [true] means the
    transport fails for that request. *)
Definition served {A} (f : Server -> Res A * Server) (s : Server)
    : Res A * Server :=
  match sv_faults s with
  | true :: rest => (Raise (ConnectionError "Connection refused"),
                     set_faults rest s)
  | false :: rest => f (set_faults rest s)
  | [] => f s
  end.

Definition authed {A} (tok : string) (f : Server -> Res A * Server)
    (s : Server) : Res A * Server :=
  if decide (tok = token) then f s
  else (Raise (ZabbixAPIException "Not authorised."), s).

Definition api : RemoteAPI Server := {|
  user_login user password := served (fun s =>
    if decide (user = "Admin" ∧ password = sv_password s)
    then (Ok token, s)
    else (Raise (ZabbixAPIException
                   "Login name or password is incorrect."), s));
  apiinfo_version := served (fun s => (Ok "6.0.0", s));
  template_get tok := served (authed tok (fun s => (Ok [], s)));
  host_get tok hostname := served (authed tok (fun s =>
    (Ok (filter (fun h => host h = hostname) (sv_hosts s)), s)));
  host_create tok params := served (authed tok (fun s =>
    match filter (fun h => host h = cp_host params) (sv_hosts s) with
    | _ :: _ => (Raise (ZabbixAPIException
                          ("Host with the same name '"
                             +:+ cp_host params +:+ "' already exists.")),
                 s)
    | [] =>
        if bool_decide (None ∈ cp_groups params)
        then (Raise (ZabbixAPIException
                       "Invalid parameter '/1/groups/1/groupid'."), s)
        else let id := pretty (sv_next_id s) in
             (Ok [id], add_host (mkHost id (cp_host params)) s)
    end));
  hostgroup_get tok filter_name := served (authed tok (fun s =>
    match filter_name with
    | Some n => (Ok (filter (fun g => grp_name g = n) (sv_groups s)), s)
    | None => (Ok (sv_groups s), s)
    end));
  hostgroup_create tok name := served (authed tok (fun s =>
    if sv_may_create_group s
    then let id := pretty (sv_next_id s) in
         (Ok [id], add_group (mkHostGroup id name) s)
    else (Raise (ZabbixAPIException
                   "No permissions to call 'hostgroup.create'."), s)))
|}.

(** Decimal digits only. *)
Fixpoint digits (s : string) (acc : Z) : option Z :=
  match s with
  | EmptyString => Some acc
  | String c rest =>
      let n := Ascii.nat_of_ascii c in
      if bool_decide (48 ≤ n ≤ 57)%nat
      then digits rest (10 * acc + Z.of_nat (n - 48))%Z
      else None
  end.

Definition int_of_str (s : string) : option Z :=
  match s with
  | EmptyString => None
  | _ => digits s 0%Z
  end.

(** Splits at every occurrence of [sep]. *)
Fixpoint split_on (sep : Ascii.ascii) (s : string) (cur : string)
    : list string :=
  match s with
  | EmptyString => [cur]
  | String c rest =>
      if decide (c = sep) then cur :: split_on sep rest EmptyString
      else split_on sep rest (cur +:+ String c EmptyString)
  end.

Definition read_csv (contents : string) : Res DataFrame :=
  match filter (fun l => l ≠ EmptyString)
               (split_on "010"%char contents EmptyString) with
  | [] => Raise (ValueError "No columns to parse from file")
  | header :: lines =>
      Ok (mkDataFrame (split_on ","%char header EmptyString)
                      (map (fun l => split_on ","%char l EmptyString) lines))
  end.

Definition py : PyLib := mkPyLib int_of_str read_csv (fun name => name).

Definition server0 : Server :=
  mkServer "zabbix" [] [] 10084 true [].

Definition world (s : Server) : World Server :=
  mkWorld None s [] [] ∅ [] [].

Definition handle : ZabbixAPI := mkZabbixAPI ZABBIX_URL token.

Definition newline : string := String "010"%char EmptyString.
End Sim.


(** ** Vocabulary of the statements *)

(** What the handler of [get_default_hostgroup] makes of the answer to its
    unfiltered listing. *)
Definition fallback_result (res : Res (list HostGroup))
    : Res (option string) :=
  match res with
  | Ok (g :: _) => Ok (Some (groupid g))
  | Ok [] => Ok None
  | Raise e => Raise e
  end.

(** The seven keys that the version-3 branch of [create_host_in_zabbix]
    stores in [interface['details']]. *)
Definition v3_fields : list string :=
  ["securityname"; "securitylevel"; "authprotocol"; "authpassphrase";
   "privprotocol"; "privpassphrase"; "contextname"].

(** The [details] every descriptor starts from, and keeps unchanged when
    the version is neither ['2'] nor ['3']. *)
Definition plain_details (v : option string) : gmap string Value :=
  <["bulk" := VInt 0]> (<["version" := version_value v]> ∅).

(** A table as [pd.read_csv] delivers it to the loop: it has the required
    columns and every record has one cell per column. *)
Definition valid_table (df : DataFrame) : Prop :=
  has_required_columns df = true
  /\ Forall (fun cells => length cells = length (columns df)) (data df).

(** The name and address a row carries, as the loop reads them. *)
Definition row_key (row : Row) : option string * option string :=
  (row_lookup row "nome", row_lookup row "ip").

Definition outcome_key (o : Outcome) : option string * option string :=
  (Some (nome o), Some (ip o)).

(** Request [c] was issued between world [w] and the later world [w']. *)
Definition issued {R : Type} (w w' : World R) (c : Call) : Prop :=
  exists before after, calls w' = calls w ++ before ++ c :: after.

(** The host names looked up by the device lookups of a request log, in
    the order the lookups were sent. *)
Fixpoint looked_up (cs : list Call) : list string :=
  match cs with
  | [] => []
  | CHostGet hostname :: rest => hostname :: looked_up rest
  | _ :: rest => looked_up rest
  end.

(** ** Concrete requests and servers *)

Module Examples.
Definition csv_two_hosts : string :=
  "nome,ip" +:+ Sim.newline +:+
  "host-a,10.0.0.1" +:+ Sim.newline +:+
  "host-b,10.0.0.2" +:+ Sim.newline.

(** The same table under an English header. *)
Definition csv_english_header : string :=
  "name,address" +:+ Sim.newline +:+
  "host-a,10.0.0.1" +:+ Sim.newline +:+
  "host-b,10.0.0.2" +:+ Sim.newline.

Definition df_two_hosts : DataFrame :=
  mkDataFrame ["nome"; "ip"]
              [["host-a"; "10.0.0.1"]; ["host-b"; "10.0.0.2"]].

Definition df_english_header : DataFrame :=
  mkDataFrame ["name"; "address"]
              [["host-a"; "10.0.0.1"]; ["host-b"; "10.0.0.2"]].

Definition form_v2 : gmap string (list string) :=
  <["templates[]" := ["10001"]]>
    (<["snmp_version" := ["2"]]>
       (<["snmp_community" := ["monitor"]]> ∅)).

Definition form_v3 : gmap string (list string) :=
  <["templates[]" := ["10001"]]>
    (<["snmp_version" := ["3"]]>
       (<["snmp_securityname" := ["operator"]]>
          (<["snmp_securitylevel" := ["2"]]> ∅))).

(** A form that selects no template. *)
Definition form_no_templates : gmap string (list string) :=
  <["snmp_version" := ["2"]]> ∅.

(** A form that selects a template and names no SNMP version. *)
Definition form_no_version : gmap string (list string) :=
  <["templates[]" := ["10001"]]> ∅.

Definition upload_two_hosts : Upload := mkUpload "hosts.csv" csv_two_hosts.
Definition upload_english_header : Upload :=
  mkUpload "hosts.csv" csv_english_header.

Definition host_a : Host := mkHost "10083" "host-a".
Definition imported_hosts : HostGroup := mkHostGroup "17" "Imported Hosts".
Definition zabbix_servers : HostGroup := mkHostGroup "4" "Zabbix servers".

(** A server that already monitors [host-a]. *)
Definition server_with_host_a : Sim.Server :=
  Sim.mkServer "zabbix" [host_a] [] 10084 true [].

(** A server that already has the group "Imported Hosts". *)
Definition server_with_group : Sim.Server :=
  Sim.mkServer "zabbix" [] [imported_hosts] 10084 true [].

(** A server without any group whose user may not create one. *)
Definition server_without_groups : Sim.Server :=
  Sim.mkServer "zabbix" [] [] 10084 false [].

(** A server with one group whose transport fails on the second request
    it receives. *)
Definition server_flaky : Sim.Server :=
  Sim.mkServer "zabbix" [] [zabbix_servers] 10084 true [false; true].

(** A server on which the fixed credentials are not valid. *)
Definition server_other_password : Sim.Server :=
  Sim.mkServer "s3cret" [] [] 10084 true [].

(** A version-3 form whose security level is not a number. *)
Definition form_v3_bad_level : gmap string (list string) :=
  <["templates[]" := ["10001"]]>
    (<["snmp_version" := ["3"]]>
       (<["snmp_securitylevel" := ["authPriv"]]> ∅)).

(** An upload without any line. *)
Definition upload_empty : Upload := mkUpload "hosts.csv" EmptyString.

(** An upload that is not a CSV by its name. *)
Definition upload_spreadsheet : Upload :=
  mkUpload "hosts.xlsx" csv_two_hosts.

(** A server whose transport fails on the first two requests. *)
Definition server_down : Sim.Server :=
  Sim.mkServer "zabbix" [] [zabbix_servers] 10084 true [true; true].

(** A server that answers the first request and fails on the next two. *)
Definition server_down_after_lookup : Sim.Server :=
  Sim.mkServer "zabbix" [] [zabbix_servers] 10084 true
               [false; true; true].

(** A process whose global already holds the authenticated handle. *)
Definition connected_world (s : Sim.Server) : World Sim.Server :=
  mkWorld (Some Sim.handle) s [] [] ∅ [] [].

(** A table that has only its header. *)
Definition df_header_only : DataFrame := mkDataFrame ["nome"; "ip"] [].
Definition upload_header_only : Upload :=
  mkUpload "hosts.csv" ("nome,ip" +:+ Sim.newline).

(** The reference server, except that its [host.create] acknowledges a
    request without returning any identifier. *)
Definition api_silent : RemoteAPI Sim.Server :=
  mkRemoteAPI Sim.Server
    (user_login Sim.api) (apiinfo_version Sim.api) (template_get Sim.api)
    (host_get Sim.api)
    (fun tok params =>
       Sim.served (Sim.authed tok (fun s => (Ok [], s))))
    (hostgroup_get Sim.api) (hostgroup_create Sim.api).
End Examples.

(** * Properties of the application *)

(** Unfolds the monad and the primitive effects so that a run computes. *)
Ltac run :=
  unfold try_except, bind, ret, raise, request, lift_res, flash, print,
    get_global, set_global, row_get in *;
  simpl in *.

(** Case analysis on a membership hypothesis in an explicit list. *)
Ltac members :=
  repeat match goal with
         | H : _ ∈ [] |- _ => by apply elem_of_nil in H
         | H : _ ∈ _ :: _ |- _ =>
             apply elem_of_cons in H as [H|H]; simplify_eq
         end.

(** Splits on every [match] of the goal, simplifying after each split. *)
Ltac paths := repeat (case_match; simplify_eq; simpl in * ).

Section GroupResolver.
Context {R : Type}.
Variable api : RemoteAPI R.
Variable py : PyLib.
Implicit Types (w : World R) (zapi : ZabbixAPI).

Lemma get_default_hostgroup_found zapi w g gs r1 :
  hostgroup_get api (auth zapi) (Some "Imported Hosts") (remote w)
    = (Ok (g :: gs), r1) ->
  get_default_hostgroup api zapi w
    = (Ok (Some (groupid g)),
       answered (CHostgroupGet (Some "Imported Hosts")) (Ok (g :: gs)) r1 w).
Proof.
  intros Hget. unfold get_default_hostgroup. run. by rewrite Hget.
Qed.

Lemma get_default_hostgroup_created zapi w r1 gid ids r2 :
  hostgroup_get api (auth zapi) (Some "Imported Hosts") (remote w)
    = (Ok [], r1) ->
  hostgroup_create api (auth zapi) "Imported Hosts" r1
    = (Ok (gid :: ids), r2) ->
  exists w',
    get_default_hostgroup api zapi w = (Ok (Some gid), w')
    /\ calls w' = calls w ++ [CHostgroupGet (Some "Imported Hosts");
                              CHostgroupCreate "Imported Hosts"]
    /\ failures w' = failures w
    /\ remote w' = r2.
Proof.
  intros Hget Hcreate. unfold get_default_hostgroup. run.
  rewrite Hget. simpl. rewrite Hcreate. simpl.
  eexists. split; [reflexivity|]. simpl. by rewrite <- app_assoc.
Qed.

Lemma get_default_hostgroup_create_failed zapi w r1 cres r2 res r3 :
  hostgroup_get api (auth zapi) (Some "Imported Hosts") (remote w)
    = (Ok [], r1) ->
  hostgroup_create api (auth zapi) "Imported Hosts" r1 = (cres, r2) ->
  (forall gid ids, cres <> Ok (gid :: ids)) ->
  hostgroup_get api (auth zapi) None r2 = (res, r3) ->
  exists w',
    get_default_hostgroup api zapi w = (fallback_result res, w')
    /\ calls w' = calls w ++ [CHostgroupGet (Some "Imported Hosts");
                              CHostgroupCreate "Imported Hosts";
                              CHostgroupGet None]
    /\ remote w' = r3.
Proof.
  intros Hget Hcreate Hfail Hall. unfold get_default_hostgroup. run.
  rewrite Hget. simpl. rewrite Hcreate. simpl.
  destruct cres as [[|gid ids]|e]; simpl; [| by destruct (Hfail gid ids) |];
    rewrite Hall; simpl;
    (eexists; split;
     [ by destruct res as [[|? ?]|?] | simpl; by rewrite <- !app_assoc ]).
Qed.

Lemma get_default_hostgroup_lookup_failed zapi w e r1 res r3 :
  hostgroup_get api (auth zapi) (Some "Imported Hosts") (remote w)
    = (Raise e, r1) ->
  hostgroup_get api (auth zapi) None r1 = (res, r3) ->
  exists w',
    get_default_hostgroup api zapi w = (fallback_result res, w')
    /\ calls w' = calls w ++ [CHostgroupGet (Some "Imported Hosts");
                              CHostgroupGet None]
    /\ remote w' = r3.
Proof.
  intros Hget Hall. unfold get_default_hostgroup. run.
  rewrite Hget. simpl. rewrite Hall. simpl.
  eexists. split; [ by destruct res as [[|? ?]|?] |].
  simpl. by rewrite <- !app_assoc.
Qed.

(** Whatever the resolver returns for a row that is not a duplicate and
    whose descriptor is built, an identifier or [None], is what the
    row's create-host request carries as its only group. *)
Lemma create_host_in_zabbix_sends_resolved_group
    zapi hostname address tids v fd w r1 i gid w2 :
  host_get api (auth zapi) hostname (remote w) = (Ok [], r1) ->
  build_interface py address v fd = Ok i ->
  get_default_hostgroup api zapi
    (answered (CHostGet hostname) (Ok ([] : list Host)) r1 w)
    = (Ok gid, w2) ->
  exists o w',
    create_host_in_zabbix api py zapi hostname address tids v fd w
      = (Ok o, w')
    /\ calls w' = calls w2
                    ++ [CHostCreate
                          (make_create_params hostname i gid tids)].
Proof.
  intros Hget Hbuild Hgroup. unfold create_host_in_zabbix. run.
  rewrite Hget. simpl. rewrite Hbuild. simpl. rewrite Hgroup.
  destruct (host_create api (auth zapi)
              (make_create_params hostname i gid tids) (remote w2))
    as [[[|hid hids]|e] r3];
    simpl; eauto.
Qed.

(** C4 (amended).  The group resolver looks up the group named
    "Imported Hosts" and returns the first match's identifier without
    creating anything; if the lookup finds none it creates the group and
    returns the new identifier; if the lookup or the creation fails (an
    exception, or a creation answer without identifier) it lists all
    groups and returns the first one's identifier; and if that listing is
    empty it does not fail: it returns [None].  Only an exception of the
    listing itself escapes.  The create-host request of a row is then
    sent with whatever the resolver returned as its only group: the
    identifier, or the null identifier when the resolver returned
    [None]. *)
Theorem get_default_hostgroup_policy zapi w :
  let lookup := CHostgroupGet (Some "Imported Hosts") in
  let create := CHostgroupCreate "Imported Hosts" in
  let listing := CHostgroupGet None in
  (forall g gs r1,
      hostgroup_get api (auth zapi) (Some "Imported Hosts") (remote w)
        = (Ok (g :: gs), r1) ->
      exists w',
        get_default_hostgroup api zapi w = (Ok (Some (groupid g)), w')
        /\ calls w' = calls w ++ [lookup] /\ remote w' = r1)
  /\ (forall r1 gid ids r2,
        hostgroup_get api (auth zapi) (Some "Imported Hosts") (remote w)
          = (Ok [], r1) ->
        hostgroup_create api (auth zapi) "Imported Hosts" r1
          = (Ok (gid :: ids), r2) ->
        exists w',
          get_default_hostgroup api zapi w = (Ok (Some gid), w')
          /\ calls w' = calls w ++ [lookup; create] /\ remote w' = r2)
  /\ (forall r1 cres r2 res r3,
        hostgroup_get api (auth zapi) (Some "Imported Hosts") (remote w)
          = (Ok [], r1) ->
        hostgroup_create api (auth zapi) "Imported Hosts" r1 = (cres, r2) ->
        (forall gid ids, cres <> Ok (gid :: ids)) ->
        hostgroup_get api (auth zapi) None r2 = (res, r3) ->
        exists w',
          get_default_hostgroup api zapi w = (fallback_result res, w')
          /\ calls w' = calls w ++ [lookup; create; listing]
          /\ remote w' = r3)
  /\ (forall e r1 res r3,
        hostgroup_get api (auth zapi) (Some "Imported Hosts") (remote w)
          = (Raise e, r1) ->
        hostgroup_get api (auth zapi) None r1 = (res, r3) ->
        exists w',
          get_default_hostgroup api zapi w = (fallback_result res, w')
          /\ calls w' = calls w ++ [lookup; listing]
          /\ remote w' = r3)
  /\ fallback_result (Ok []) = Ok None
  /\ (forall hostname address tids v fd w0 r0 i gid,
        host_get api (auth zapi) hostname (remote w0) = (Ok [], r0) ->
        build_interface py address v fd = Ok i ->
        w = answered (CHostGet hostname) (Ok ([] : list Host)) r0 w0 ->
        forall w2,
          get_default_hostgroup api zapi w = (Ok gid, w2) ->
          exists o w',
            create_host_in_zabbix api py zapi hostname address tids v fd w0
              = (Ok o, w')
            /\ calls w' = calls w2
                 ++ [CHostCreate (make_create_params hostname i gid tids)]
            /\ cp_groups (make_create_params hostname i gid tids)
               = [gid]).
Proof.
  intros lookup create listing. split_and!.
  - intros g gs r1 Hget. eexists. split.
    + by apply get_default_hostgroup_found.
    + done.
  - intros r1 gid ids r2 Hget Hcreate.
    destruct (get_default_hostgroup_created zapi w r1 gid ids r2)
      as (w' & ? & ? & ? & ?); eauto.
  - intros r1 cres r2 res r3 Hget Hcreate Hfail Hall.
    eapply get_default_hostgroup_create_failed; eauto.
  - intros e r1 res r3 Hget Hall.
    eapply get_default_hostgroup_lookup_failed; eauto.
  - done.
  - intros hostname address tids v fd w0 r0 i gid Hget Hbuild -> w2 Hgroup.
    destruct (create_host_in_zabbix_sends_resolved_group zapi hostname
                address tids v fd w0 r0 i gid w2 Hget Hbuild Hgroup)
      as (o & w' & Hrun & Hcalls).
    by exists o, w'.
Qed.

End GroupResolver.

Section CreateHost.
Context {R : Type}.
Variable api : RemoteAPI R.
Variable py : PyLib.
Implicit Types (w : World R) (zapi : ZabbixAPI).
Implicit Types (fd : gmap string (list string)).

(** [create_host_in_zabbix] never lets an exception escape: it always
    returns a result dictionary for the row it was given. *)
Lemma create_host_in_zabbix_total zapi hostname address tids v fd w :
  exists o w',
    create_host_in_zabbix api py zapi hostname address tids v fd w
      = (Ok o, w')
    /\ nome o = hostname /\ ip o = address.
Proof.
  unfold create_host_in_zabbix, get_default_hostgroup. run.
  paths; eauto.
Qed.

(** Whatever create-host request a row issues carries the descriptor that
    [build_interface] made for that row. *)
Lemma create_host_in_zabbix_sends_built_interface
    zapi hostname address tids v fd w o w' p :
  create_host_in_zabbix api py zapi hostname address tids v fd w
    = (Ok o, w') ->
  issued w w' (CHostCreate p) ->
  exists i gid,
    build_interface py address v fd = Ok i
    /\ p = make_create_params hostname i gid tids.
Proof.
  unfold create_host_in_zabbix, get_default_hostgroup. run.
  intros Hrun (before & after & Hcalls).
  assert (CHostCreate p ∈ drop (length (calls w)) (calls w')) as Hin.
  { rewrite Hcalls, drop_app_length. set_solver. }
  clear Hcalls. revert Hrun Hin.
  paths; intros Hrun Hin; simplify_eq; simpl in Hin;
    rewrite <- ?app_assoc, drop_app_length in Hin; simpl in Hin;
    members; simplify_eq; eauto.
Qed.

Lemma build_interface_v2 address fd :
  build_interface py address (Some "2") fd
    = Ok (mkInterface 2 1 1 address EmptyString "161"
            (<["community" :=
                 VStr (form_get_default fd "snmp_community" "public")]>
               (plain_details (Some "2")))).
Proof. reflexivity. Qed.

Lemma build_interface_v3 address fd i :
  build_interface py address (Some "3") fd = Ok i ->
  exists level,
    securitylevel py fd = Ok level
    /\ if_details i =
       <["contextname" :=
           VStr (form_get_default fd "snmp_contextname" EmptyString)]>
      (<["privpassphrase" :=
           VStr (form_get_default fd "snmp_privpassphrase" EmptyString)]>
      (<["privprotocol" :=
           VStr (form_get_default fd "snmp_privprotocol" "0")]>
      (<["authpassphrase" :=
           VStr (form_get_default fd "snmp_authpassphrase" EmptyString)]>
      (<["authprotocol" :=
           VStr (form_get_default fd "snmp_authprotocol" "0")]>
      (<["securitylevel" := VInt level]>
      (<["securityname" :=
           VStr (form_get_default fd "snmp_securityname" EmptyString)]>
         (plain_details (Some "3")))))))).
Proof.
  unfold build_interface.
  destruct (decide (Some "3" = Some "2")) as [?|_]; [done|].
  destruct (decide (Some "3" = Some "3")) as [_|?]; [|done].
  destruct (securitylevel py fd) as [level|e]; [|done].
  intros [= <-]. by exists level.
Qed.

(** For a version-3 form the descriptor is built exactly when the
    submitted security level converts to an integer. *)
Lemma build_interface_v3_built address fd :
  (exists i, build_interface py address (Some "3") fd = Ok i)
  <-> (exists level, securitylevel py fd = Ok level).
Proof.
  split.
  - intros [i Hi]. apply build_interface_v3 in Hi as (level & ? & _).
    by exists level.
  - intros [level Hl]. unfold build_interface.
    destruct (decide (Some "3" = Some "2")) as [?|_]; [done|].
    destruct (decide (Some "3" = Some "3")) as [_|?]; [|done].
    rewrite Hl. eauto.
Qed.


(** C2.  When the lookup of the row's name finds a device, the row's
    outcome is the Error "Host <name> já existe"; the lookup is the only
    request issued for the row, so no create-host call (nor any other
    remote effect) follows and the server is left as the lookup left
    it. *)
Theorem create_host_in_zabbix_existing
    zapi hostname address tids v fd w h hs r1 :
  host_get api (auth zapi) hostname (remote w) = (Ok (h :: hs), r1) ->
  exists w' new,
    create_host_in_zabbix api py zapi hostname address tids v fd w
      = (Ok (mkOutcome hostname address "error"
               ("Host " +:+ hostname +:+ " já existe")), w')
    /\ calls w' = calls w ++ new
    /\ new = [CHostGet hostname]
    /\ (forall p, CHostCreate p ∉ new)
    /\ remote w' = r1.
Proof.
  intros Hget. unfold create_host_in_zabbix. run. rewrite Hget. simpl.
  do 2 eexists. split_and!; try reflexivity.
  intros p. rewrite not_elem_of_cons.
  split; [discriminate | apply not_elem_of_nil].
Qed.

(** C3 (amended).  With version '2' a descriptor is always built; its
    details hold exactly version, bulk and the community string, hence
    none of the version-3 fields.  With version '3' every descriptor that
    is built holds version, bulk and all seven version-3 fields
    (securityname, securitylevel, authprotocol, authpassphrase,
    privprotocol, privpassphrase, contextname) and no community string.
    The descriptor a row sends in its create-host call is the one built
    this way. *)
Theorem build_interface_details_by_version address fd :
  (exists i,
      build_interface py address (Some "2") fd = Ok i
      /\ dom (if_details i) = {[ "version"; "bulk"; "community" ]}
      /\ if_details i !! "community"
         = Some (VStr (form_get_default fd "snmp_community" "public"))
      /\ Forall (fun k => if_details i !! k = None) v3_fields)
  /\ (forall i,
        build_interface py address (Some "3") fd = Ok i ->
        dom (if_details i)
          = {[ "version"; "bulk" ]} ∪ list_to_set v3_fields
        /\ Forall (fun k => is_Some (if_details i !! k)) v3_fields
        /\ length v3_fields = 7
        /\ NoDup v3_fields
        /\ if_details i !! "community" = None)
  /\ (forall zapi hostname tids v w o w' p,
        create_host_in_zabbix api py zapi hostname address tids v fd w
          = (Ok o, w') ->
        issued w w' (CHostCreate p) ->
        exists i,
          cp_interfaces p = [i]
          /\ build_interface py address v fd = Ok i).
Proof.
  split_and!.
  - eexists. split; [apply build_interface_v2|]. simpl.
    unfold plain_details. split_and!.
    + rewrite !dom_insert_L, dom_empty_L. set_solver.
    + done.
    + by repeat constructor.
  - intros i Hi. apply build_interface_v3 in Hi as (level & _ & ->).
    unfold plain_details, v3_fields. split_and!.
    + rewrite !dom_insert_L, dom_empty_L. set_solver.
    + repeat constructor; by eexists.
    + done.
    + repeat (apply NoDup_cons_2;
                [rewrite ?not_elem_of_cons; repeat split;
                 first [discriminate | apply not_elem_of_nil]|]).
      apply NoDup_nil_2.
    + done.
  - intros zapi hostname tids v w o w' p Hrun Hissued.
    destruct (create_host_in_zabbix_sends_built_interface zapi hostname
                address tids v fd w o w' p Hrun Hissued)
      as (i & gid & Hbuild & ->).
    by exists i.
Qed.

End CreateHost.

Section ImportLoop.
Context {R : Type}.
Variable api : RemoteAPI R.
Variable py : PyLib.
Implicit Types (w : World R) (zapi : ZabbixAPI).
Implicit Types (fd : gmap string (list string)).

Lemma row_lookup_zip (cols cells : list string) (col : string) :
  col ∈ cols -> length cells = length cols ->
  is_Some (row_lookup (zip cols cells) col).
Proof.
  revert cells. induction cols as [|c cols IH]; intros cells Hin Hlen.
  - by apply elem_of_nil in Hin.
  - destruct cells as [|cell cells]; [done|]. simpl.
    destruct (decide (c = col)) as [->|Hne]; [by eexists|].
    apply IH; [|by injection Hlen].
    apply elem_of_cons in Hin as [->|Hin]; done.
Qed.

Lemma valid_table_rows df :
  valid_table df ->
  Forall (fun row => is_Some (row_lookup row "nome")
                     /\ is_Some (row_lookup row "ip")) (iterrows df).
Proof.
  intros [Hcols Hrows]. unfold iterrows. apply Forall_fmap.
  unfold has_required_columns in Hcols. simpl in Hcols.
  apply andb_prop in Hcols as [Hnome Hip].
  apply andb_prop in Hip as [Hip _].
  apply bool_decide_eq_true in Hnome, Hip.
  eapply Forall_impl; [exact Hrows|].
  intros cells Hlen. simpl. split; by apply row_lookup_zip.
Qed.

(** One turn of the loop: the row's result is appended and the loop goes
    on with the remaining rows in the world the row left. *)
Lemma import_loop_step zapi tids v fd row rest acc w hostname address o w' :
  row_lookup row "nome" = Some hostname ->
  row_lookup row "ip" = Some address ->
  create_host_in_zabbix api py zapi hostname address tids v fd w
    = (Ok o, w') ->
  import_loop api py zapi tids v fd (row :: rest) acc w
    = import_loop api py zapi tids v fd rest (acc ++ [o]) w'.
Proof.
  intros Hnome Hip Hrun. simpl. unfold row_get, bind at 1 2 3.
  rewrite Hnome. simpl. rewrite Hip. simpl. by rewrite Hrun.
Qed.

Lemma import_loop_outcomes zapi tids v fd rows :
  Forall (fun row => is_Some (row_lookup row "nome")
                     /\ is_Some (row_lookup row "ip")) rows ->
  forall acc w,
  exists outs w',
    import_loop api py zapi tids v fd rows acc w = (Ok (acc ++ outs), w')
    /\ map outcome_key outs = map row_key rows.
Proof.
  induction 1 as [|row rows [[hostname Hnome] [address Hip]] _ IH];
    intros acc w.
  - exists [], w. simpl. by rewrite app_nil_r.
  - destruct (create_host_in_zabbix_total api py zapi hostname address
                tids v fd w) as (o & w1 & Hrun & Hn & Ha).
    destruct (IH (acc ++ [o]) w1) as (outs & w' & Hloop & Hkeys).
    exists (o :: outs), w'. split.
    + erewrite import_loop_step by eauto.
      rewrite Hloop. by rewrite <- app_assoc.
    + simpl. rewrite Hkeys. unfold outcome_key, row_key.
      by rewrite Hnome, Hip, Hn, Ha.
Qed.

(** C1.  For every valid table of N rows the import loop ends normally
    with exactly N outcome records, and the i-th record is the one of the
    i-th row: the outcomes carry the rows' names and addresses in file
    order. *)
Theorem import_loop_one_outcome_per_row zapi tids v fd df w :
  valid_table df ->
  exists results w',
    import_loop api py zapi tids v fd (iterrows df) [] w = (Ok results, w')
    /\ length results = length (data df)
    /\ map outcome_key results = map row_key (iterrows df).
Proof.
  intros Hvalid.
  destruct (import_loop_outcomes zapi tids v fd (iterrows df)
              (valid_table_rows df Hvalid) [] w)
    as (outs & w' & Hloop & Hkeys).
  exists outs, w'. split_and!; [done| |done].
  apply (f_equal length) in Hkeys.
  rewrite !length_map in Hkeys. rewrite Hkeys.
  unfold iterrows. by rewrite length_map.
Qed.

(** A descriptor that cannot be built ends the row in an Error outcome
    that carries the exception's message. *)
Lemma create_host_in_zabbix_descriptor_rejected
    zapi hostname address tids v fd w r1 e :
  host_get api (auth zapi) hostname (remote w) = (Ok [], r1) ->
  build_interface py address v fd = Raise e ->
  create_host_in_zabbix api py zapi hostname address tids v fd w
    = (Ok (mkOutcome hostname address "error" (str e)),
       answered (CHostGet hostname) (Ok ([] : list Host)) r1 w).
Proof.
  intros Hget Hbuild. unfold create_host_in_zabbix. run.
  rewrite Hget. simpl. by rewrite Hbuild.
Qed.

(** A create-host answer without identifier ends the row in an Error
    outcome: indexing the empty [hostids] list raises. *)
Lemma create_host_in_zabbix_empty_answer
    zapi hostname address tids v fd w r1 i gid w2 r3 :
  host_get api (auth zapi) hostname (remote w) = (Ok [], r1) ->
  build_interface py address v fd = Ok i ->
  get_default_hostgroup api zapi
    (answered (CHostGet hostname) (Ok ([] : list Host)) r1 w)
    = (Ok gid, w2) ->
  host_create api (auth zapi) (make_create_params hostname i gid tids)
    (remote w2) = (Ok [], r3) ->
  exists w',
    create_host_in_zabbix api py zapi hostname address tids v fd w
      = (Ok (mkOutcome hostname address "error"
               "list index out of range"), w').
Proof.
  intros Hget Hbuild Hgroup Hcreate. unfold create_host_in_zabbix. run.
  rewrite Hget. simpl. rewrite Hbuild. simpl. rewrite Hgroup.
  rewrite Hcreate. simpl. eauto.
Qed.

(** C8 (amended).  Processing a row never raises: it always yields that
    row's outcome, Success or Error, and the loop continues with the next
    row.  A duplicate device yields an Error outcome, and so does every
    failed request other than the resolver's lookup and creation of
    "Imported Hosts" (whose failures the resolver absorbs by its
    fallback): the outcome then carries that failure's message.  A
    descriptor that cannot be built and a create-host answer without
    identifier yield an Error outcome too; a Success outcome is returned
    only when create-host was the last request and was answered with an
    identifier.  No request is issued twice for a row: the device lookup
    comes first and once, at most five requests follow one another
    without repetition, and create-host is issued at most once. *)
Theorem create_host_in_zabbix_isolates_row
    zapi hostname address tids v fd w :
  exists o w' new failed,
    create_host_in_zabbix api py zapi hostname address tids v fd w
      = (Ok o, w')
    /\ nome o = hostname /\ ip o = address
    /\ (forall row rest acc,
          row_lookup row "nome" = Some hostname ->
          row_lookup row "ip" = Some address ->
          import_loop api py zapi tids v fd (row :: rest) acc w
            = import_loop api py zapi tids v fd rest (acc ++ [o]) w')
    /\ calls w' = calls w ++ new
    /\ failures w' = failures w ++ failed
    /\ (forall h hs r1,
          host_get api (auth zapi) hostname (remote w) = (Ok (h :: hs), r1) ->
          status o = "error")
    /\ (forall c e, (c, e) ∈ failed ->
          c <> CHostgroupGet (Some "Imported Hosts") ->
          c <> CHostgroupCreate "Imported Hosts" ->
          o = mkOutcome hostname address "error" (str e))
    /\ NoDup new
    /\ head new = Some (CHostGet hostname)
    /\ length new <= 5
    /\ length (List.filter is_host_get new) = 1
    /\ length (List.filter is_host_create new) <= 1
    /\ (status o = "success" \/ status o = "error")
    /\ (status o = "success" ->
        exists p r hid hids,
          last new = Some (CHostCreate p)
          /\ host_create api (auth zapi) p r
             = (Ok (hid :: hids), remote w'))
    /\ (forall r1 e,
          host_get api (auth zapi) hostname (remote w) = (Ok [], r1) ->
          build_interface py address v fd = Raise e ->
          o = mkOutcome hostname address "error" (str e))
    /\ (forall r1 i gid w2 r3,
          host_get api (auth zapi) hostname (remote w) = (Ok [], r1) ->
          build_interface py address v fd = Ok i ->
          get_default_hostgroup api zapi
            (answered (CHostGet hostname) (Ok ([] : list Host)) r1 w)
            = (Ok gid, w2) ->
          host_create api (auth zapi)
            (make_create_params hostname i gid tids) (remote w2)
            = (Ok [], r3) ->
          o = mkOutcome hostname address "error"
                "list index out of range").
Proof.
  destruct (create_host_in_zabbix_total api py zapi hostname address
              tids v fd w) as (o & w' & Hrun & Hn & Ha).
  exists o, w'.
  cut (exists new failed,
          calls w' = calls w ++ new
          /\ failures w' = failures w ++ failed
          /\ (forall h hs r1,
                host_get api (auth zapi) hostname (remote w)
                  = (Ok (h :: hs), r1) ->
                status o = "error")
          /\ (forall c e, (c, e) ∈ failed ->
                c <> CHostgroupGet (Some "Imported Hosts") ->
                c <> CHostgroupCreate "Imported Hosts" ->
                o = mkOutcome hostname address "error" (str e))
          /\ NoDup new
          /\ head new = Some (CHostGet hostname)
          /\ length new <= 5
          /\ length (List.filter is_host_get new) = 1
          /\ length (List.filter is_host_create new) <= 1
          /\ (status o = "success" \/ status o = "error")
          /\ (status o = "success" ->
              exists p r hid hids,
                last new = Some (CHostCreate p)
                /\ host_create api (auth zapi) p r
                   = (Ok (hid :: hids), remote w'))).
  { intros (new & failed & ?). exists new, failed.
    split_and!; try tauto.
    - intros row rest acc Hnome Hip.
      by apply import_loop_step with hostname address.
    - intros r1 e Hget Hbuild.
      rewrite (create_host_in_zabbix_descriptor_rejected zapi hostname
                 address tids v fd w r1 e Hget Hbuild) in Hrun.
      by injection Hrun as <- _.
    - intros r1 i gid w2 r3 Hget Hbuild Hgroup Hcreate.
      destruct (create_host_in_zabbix_empty_answer zapi hostname address
                  tids v fd w r1 i gid w2 r3 Hget Hbuild Hgroup Hcreate)
        as (w3 & Hempty).
      rewrite Hempty in Hrun. by injection Hrun as <- _. }
  clear Hn Ha. revert Hrun.
  unfold create_host_in_zabbix, get_default_hostgroup. run.
  paths; intros Hrun; simplify_eq;
    (do 2 eexists; simpl;
     split; [rewrite <- ?app_assoc; reflexivity|];
     split; [first [ symmetry; apply app_nil_r
                   | rewrite <- ?app_assoc; reflexivity ]|];
     split; [intros; simplify_eq; done|];
     split; [intros ? ? Hin Hne1 Hne2; simpl in Hin;
             members; simplify_eq; done|];
     split; [simpl;
             repeat (apply NoDup_cons_2;
                       [rewrite ?not_elem_of_cons; repeat split;
                        first [discriminate | apply not_elem_of_nil]|]);
             apply NoDup_nil_2|];
     split; [reflexivity|];
     split; [simpl; lia|];
     split; [reflexivity|];
     split; [simpl; lia|];
     split; [first [by left | by right]|];
     intros Hs; simpl in Hs;
     first [ discriminate
           | do 4 eexists; split; [reflexivity | simpl; eassumption] ]).
Qed.
End ImportLoop.

Section Connection.
Context {R : Type}.
Variable api : RemoteAPI R.
Implicit Types (w : World R).

(** Later calls reuse the handle held by the global: nothing is sent and
    the world is unchanged. *)
Lemma get_zabbix_connection_reuse w z :
  zabbix w = Some z ->
  get_zabbix_connection api w = (Ok (Some z), w).
Proof.
  intros Hz. unfold get_zabbix_connection. run. rewrite Hz. simpl.
  by rewrite Hz.
Qed.

(** The first call logs in with the fixed credentials and keeps the
    authenticated handle in the global. *)
Lemma get_zabbix_connection_first w token r1 version r2 :
  zabbix w = None ->
  user_login api ZABBIX_USER ZABBIX_PASSWORD (remote w) = (Ok token, r1) ->
  apiinfo_version api r1 = (Ok version, r2) ->
  exists w',
    get_zabbix_connection api w
      = (Ok (Some (mkZabbixAPI ZABBIX_URL token)), w')
    /\ zabbix w' = Some (mkZabbixAPI ZABBIX_URL token)
    /\ calls w' = calls w ++ [CLogin ZABBIX_USER ZABBIX_PASSWORD;
                              CApiVersion]
    /\ remote w' = r2.
Proof.
  intros Hz Hlogin Hversion. unfold get_zabbix_connection. run.
  rewrite Hz. simpl. rewrite Hlogin. simpl. rewrite Hversion. simpl.
  eexists. split_and!; try reflexivity. simpl. by rewrite <- app_assoc.
Qed.

(** C5, the failing case run on the code.  When the first login is
    refused the call returns [None], but the global already holds the
    unauthenticated handle: the next call sends nothing and returns that
    handle instead of [None]. *)
Theorem get_zabbix_connection_after_failed_login w e r1 :
  zabbix w = None ->
  user_login api ZABBIX_USER ZABBIX_PASSWORD (remote w) = (Raise e, r1) ->
  exists w1,
    get_zabbix_connection api w = (Ok None, w1)
    /\ calls w1 = calls w ++ [CLogin ZABBIX_USER ZABBIX_PASSWORD]
    /\ zabbix w1 = Some (mkZabbixAPI ZABBIX_URL EmptyString)
    /\ get_zabbix_connection api w1
       = (Ok (Some (mkZabbixAPI ZABBIX_URL EmptyString)), w1).
Proof.
  intros Hz Hlogin. unfold get_zabbix_connection at 1. run.
  rewrite Hz. simpl. rewrite Hlogin. simpl.
  eexists. split_and!; reflexivity.
Qed.

(** The two JSON views answer with an error and send nothing more when
    the connection manager returns [None]. *)
Lemma json_views_stop_without_connection w w1 :
  get_zabbix_connection api w = (Ok None, w1) ->
  get_templates api w
    = (Ok (Json (JObject [("error",
                           "Não foi possível conectar ao Zabbix")]) 500),
       w1)
  /\ test_connection api w
     = (Ok (Json (JObject [("status", "error");
                           ("message",
                            "Não foi possível conectar ao Zabbix")]) 500),
        w1).
Proof.
  intros Hconn. unfold get_templates, test_connection.
  unfold try_except, bind. by rewrite Hconn.
Qed.
End Connection.

Section ImportHosts.
Context {R : Type}.
Variable api : RemoteAPI R.
Variable py : PyLib.
Implicit Types (w : World R) (req : Request).

Lemma has_required_columns_false df :
  "nome" ∉ columns df \/ "ip" ∉ columns df ->
  has_required_columns df = false.
Proof.
  unfold has_required_columns. simpl. intros [H|H].
  - by rewrite (bool_decide_eq_false_2 _ H).
  - rewrite (bool_decide_eq_false_2 _ H). by rewrite andb_false_r.
Qed.

(** C6 (amended).  The required columns are [nome] and [ip]: for every
    uploaded CSV whose table lacks one of them the import is rejected at
    once with the message naming the two columns; no row is processed,
    no remote request is sent and the server is untouched. *)
Theorem import_hosts_missing_column req w file df :
  csv_file req = Some file ->
  filename file <> EmptyString ->
  endswith (filename file) ".csv" = true ->
  read_csv py (content file) = Ok df ->
  "nome" ∉ columns df \/ "ip" ∉ columns df ->
  exists w',
    import_hosts api py req w = (Ok (Redirect "index"), w')
    /\ flashes w' = flashes w
                     ++ [("O CSV deve conter as colunas: nome, ip", "error")]
    /\ calls w' = calls w
    /\ remote w' = remote w.
Proof.
  intros Hfile Hname Hcsv Hread Hcols.
  apply has_required_columns_false in Hcols.
  unfold import_hosts, file_save, pd_read_csv, os_remove. run.
  rewrite Hfile, Hcsv. simpl.
  destruct (decide (filename file = EmptyString)) as [?|_]; [done|].
  rewrite lookup_insert_eq, Hread, Hcols. simpl.
  rewrite lookup_insert_eq. eauto.
Qed.

(** C7.  Every submission with no template selected is rejected: the
    view redirects to the index page with one flashed error, produces no
    outcome record, sends no remote request and leaves the server
    untouched. *)
Theorem import_hosts_no_templates req w :
  form_getlist (form req) "templates[]" = [] ->
  exists w' message,
    import_hosts api py req w = (Ok (Redirect "index"), w')
    /\ flashes w' = flashes w ++ [(message, "error")]
    /\ calls w' = calls w
    /\ remote w' = remote w.
Proof.
  intros Hnone.
  unfold import_hosts, file_save, pd_read_csv, os_remove. run.
  rewrite Hnone.
  destruct (csv_file req) as [file|]; simpl; [|eauto 10].
  destruct (decide (filename file = EmptyString)) as [?|_]; simpl;
    [eauto 10|].
  destruct (endswith (filename file) ".csv"); simpl; [|eauto 10].
  rewrite lookup_insert_eq.
  destruct (read_csv py (content file)) as [df|e]; simpl; [|eauto 10].
  destruct (has_required_columns df); simpl;
    rewrite lookup_insert_eq; eauto 10.
Qed.

(** The import view, too, stops when the connection manager returns
    [None]: it flashes the connection error and sends nothing more. *)
Lemma import_hosts_stops_without_connection req w file df tid tids w1 :
  csv_file req = Some file ->
  filename file <> EmptyString ->
  endswith (filename file) ".csv" = true ->
  read_csv py (content file) = Ok df ->
  has_required_columns df = true ->
  form_getlist (form req) "templates[]" = tid :: tids ->
  get_zabbix_connection api
    (set_files (<[path_join UPLOAD_FOLDER
                    (secure_filename py (filename file)) :=
                    content file]> (files w)) w) = (Ok None, w1) ->
  files w1 !! path_join UPLOAD_FOLDER (secure_filename py (filename file))
    = Some (content file) ->
  exists w',
    import_hosts api py req w = (Ok (Redirect "index"), w')
    /\ flashes w' = flashes w1 ++ [("Erro ao conectar ao Zabbix", "error")]
    /\ calls w' = calls w1.
Proof.
  intros Hfile Hname Hcsv Hread Hcols Htpl Hconn Hkept.
  unfold import_hosts, file_save, pd_read_csv, os_remove.
  unfold try_except, bind, flash, ret.
  rewrite Hfile, Hcsv. simpl.
  destruct (decide (filename file = EmptyString)) as [?|_]; [done|].
  simpl. rewrite lookup_insert_eq, Hread, Hcols, Htpl. simpl.
  rewrite Hconn. simpl. rewrite Hkept. eauto.
Qed.

(** Neither the connection manager nor the processing of rows touches
    the upload folder. *)
Lemma get_zabbix_connection_files w res w' :
  get_zabbix_connection api w = (res, w') -> files w' = files w.
Proof.
  unfold get_zabbix_connection. run.
  paths; intros; simplify_eq; done.
Qed.

Lemma create_host_in_zabbix_files zapi hostname address tids v fd w res w' :
  create_host_in_zabbix api py zapi hostname address tids v fd w
    = (res, w') ->
  files w' = files w.
Proof.
  unfold create_host_in_zabbix, get_default_hostgroup. run.
  paths; intros; simplify_eq; done.
Qed.

Lemma import_loop_files zapi tids v fd rows :
  forall acc w res w',
    import_loop api py zapi tids v fd rows acc w = (res, w') ->
    files w' = files w.
Proof.
  induction rows as [|row rows IH]; intros acc w res w' Hrun.
  - by injection Hrun as _ <-.
  - simpl in Hrun. unfold row_get, bind at 1 2 3 in Hrun.
    destruct (row_lookup row "nome") as [hostname|]; simpl in Hrun;
      [|by injection Hrun as _ <-].
    destruct (row_lookup row "ip") as [address|]; simpl in Hrun;
      [|by injection Hrun as _ <-].
    destruct (create_host_in_zabbix api py zapi hostname address tids v
                fd w) as [[o|e] w1] eqn:Hrow.
    + apply IH in Hrun. apply create_host_in_zabbix_files in Hrow.
      congruence.
    + injection Hrun as _ <-.
      by apply create_host_in_zabbix_files in Hrow.
Qed.

(** X15.  A whole submission that passes the input checks and obtains a
    handle renders one outcome per row of the table, in file order, and
    its two counts add up to the number of rows. *)
Lemma import_hosts_renders_every_row req w file df tid tids zapi w1 :
  csv_file req = Some file ->
  filename file <> EmptyString ->
  endswith (filename file) ".csv" = true ->
  read_csv py (content file) = Ok df ->
  valid_table df ->
  form_getlist (form req) "templates[]" = tid :: tids ->
  get_zabbix_connection api
    (set_files (<[path_join UPLOAD_FOLDER
                    (secure_filename py (filename file)) :=
                    content file]> (files w)) w) = (Ok (Some zapi), w1) ->
  exists results w',
    import_hosts api py req w
      = (Ok (Render results (count_success results)
               (length results - count_success results)), w')
    /\ length results = length (data df)
    /\ map outcome_key results = map row_key (iterrows df)
    /\ count_success results + (length results - count_success results)
       = length (data df).
Proof.
  intros Hfile Hname Hcsv Hread Hvalid Htpl Hconn.
  pose proof (get_zabbix_connection_files _ _ _ Hconn) as Hfiles1.
  simpl in Hfiles1.
  destruct (import_loop_outcomes api py zapi (tid :: tids)
              (form_get (form req) "snmp_version") (form req)
              (iterrows df) (valid_table_rows df Hvalid) [] w1)
    as (results & w2 & Hloop & Hkeys).
  simpl in Hloop.
  pose proof (import_loop_files _ _ _ _ _ _ _ _ _ Hloop) as Hfiles2.
  assert (length results = length (data df)) as Hlen.
  { apply (f_equal length) in Hkeys. rewrite !length_map in Hkeys.
    rewrite Hkeys. unfold iterrows. by rewrite length_map. }
  exists results. eexists. split_and!; [|done|done|].
  - unfold import_hosts, file_save, pd_read_csv, os_remove.
    unfold try_except, bind, flash, ret.
    rewrite Hfile, Hcsv. simpl.
    destruct (decide (filename file = EmptyString)) as [?|_]; [done|].
    simpl. rewrite lookup_insert_eq, Hread. destruct Hvalid as [-> _].
    rewrite Htpl. simpl. rewrite Hconn. rewrite Hloop.
    rewrite Hfiles2, Hfiles1, lookup_insert_eq. reflexivity.
  - pose proof (length_filter (fun r => status r = "success") results).
    unfold count_success. lia.
Qed.
End ImportHosts.

(** * Further properties: the connection manager and the JSON views *)

Section ConnectionExtras.
Context {R : Type}.
Variable api : RemoteAPI R.
Implicit Types (w : World R).

(** X1.  On a fresh process with a server that accepts the login and
    answers the version probe, the first call logs in once and a second
    call returns the very same handle without sending anything: the two
    calls together issue one login and one version request. *)
Theorem get_zabbix_connection_login_once w token r1 version r2 :
  zabbix w = None ->
  user_login api ZABBIX_USER ZABBIX_PASSWORD (remote w) = (Ok token, r1) ->
  apiinfo_version api r1 = (Ok version, r2) ->
  exists w1,
    get_zabbix_connection api w
      = (Ok (Some (mkZabbixAPI ZABBIX_URL token)), w1)
    /\ get_zabbix_connection api w1
       = (Ok (Some (mkZabbixAPI ZABBIX_URL token)), w1)
    /\ calls w1 = calls w ++ [CLogin ZABBIX_USER ZABBIX_PASSWORD;
                              CApiVersion]
    /\ failures w1 = failures w
    /\ stdout w1 = stdout w
                     ++ ["Conectado ao Zabbix API versão " +:+ version].
Proof.
  intros Hz Hlogin Hversion. unfold get_zabbix_connection at 1. run.
  rewrite Hz. simpl. rewrite Hlogin. simpl. rewrite Hversion. simpl.
  eexists. split_and!; try reflexivity.
  simpl. by rewrite <- app_assoc.
Qed.

(** X2.  The connection manager never raises.  It returns [None] only
    when a request of that very call failed (the login or the version
    probe), and then the failure's message is printed; whenever it
    returns a handle, that handle is the one the global holds. *)
Theorem get_zabbix_connection_none_only_on_failure w :
  exists z w',
    get_zabbix_connection api w = (Ok z, w')
    /\ (z = None ->
        exists c e,
          failures w' = failures w ++ [(c, e)]
          /\ (c = CLogin ZABBIX_USER ZABBIX_PASSWORD \/ c = CApiVersion)
          /\ last (stdout w')
             = Some ("Erro ao conectar ao Zabbix: " +:+ str e))
    /\ (forall h, z = Some h -> zabbix w' = Some h).
Proof.
  unfold get_zabbix_connection. run.
  paths; (do 2 eexists; split; [reflexivity|]; split;
          [ intros ?; simplify_eq; do 2 eexists; simpl;
            rewrite last_snoc; eauto
          | intros h ?; by simplify_eq ]).
Qed.

(** X3.  When the login succeeds and only the version probe fails, the
    call returns [None] although the session is established: the global
    keeps the authenticated handle and the next call returns it without
    any request. *)
Theorem get_zabbix_connection_version_probe_failure w token r1 e r2 :
  zabbix w = None ->
  user_login api ZABBIX_USER ZABBIX_PASSWORD (remote w) = (Ok token, r1) ->
  apiinfo_version api r1 = (Raise e, r2) ->
  exists w1,
    get_zabbix_connection api w = (Ok None, w1)
    /\ zabbix w1 = Some (mkZabbixAPI ZABBIX_URL token)
    /\ calls w1 = calls w ++ [CLogin ZABBIX_USER ZABBIX_PASSWORD;
                              CApiVersion]
    /\ get_zabbix_connection api w1
       = (Ok (Some (mkZabbixAPI ZABBIX_URL token)), w1).
Proof.
  intros Hz Hlogin Hversion. unfold get_zabbix_connection at 1. run.
  rewrite Hz. simpl. rewrite Hlogin. simpl. rewrite Hversion. simpl.
  eexists. split_and!; try reflexivity.
  simpl. by rewrite <- app_assoc.
Qed.

(** X4.  The template listing never raises.  It answers either 200 with
    one (id, text) item per template the server returned, in the
    server's order, the listing being the last request sent; or 500 with
    a one-field error object. *)
Theorem get_templates_response w :
  exists body code w',
    get_templates api w = (Ok (Json body code), w')
    /\ ((code = 200%Z
         /\ exists z r templates,
             zabbix w' = Some z
             /\ template_get api (auth z) r = (Ok templates, remote w')
             /\ body = JTemplates
                         (map (fun t => (templateid t, tpl_name t))
                              templates)
             /\ last (calls w') = Some CTemplateGet)
        \/ (code = 500%Z /\ exists message,
               body = JObject [("error", message)])).
Proof.
  unfold get_templates, get_zabbix_connection. run.
  paths;
    (do 3 eexists; split; [reflexivity|];
     first [ right; split; [reflexivity|]; eexists; reflexivity
           | left; split; [reflexivity|]; do 3 eexists; simpl;
             rewrite last_snoc; split_and!; eauto ]).
Qed.

(** X5.  After a refused login the connectivity check is wrong the second
    time: the first check answers 500, but the second finds the cached
    unauthenticated handle, sends only the version probe (which needs no
    session) and answers 200 "success" although no login ever
    succeeded. *)
Theorem test_connection_after_failed_login w e r1 version r2 :
  zabbix w = None ->
  user_login api ZABBIX_USER ZABBIX_PASSWORD (remote w) = (Raise e, r1) ->
  apiinfo_version api r1 = (Ok version, r2) ->
  exists w1 w2,
    test_connection api w
      = (Ok (Json (JObject [("status", "error");
                            ("message",
                             "Não foi possível conectar ao Zabbix")])
                  500), w1)
    /\ test_connection api w1
       = (Ok (Json (JObject [("status", "success");
                             ("message",
                              "Conectado ao Zabbix " +:+ version)])
                   200), w2)
    /\ calls w2 = calls w ++ [CLogin ZABBIX_USER ZABBIX_PASSWORD;
                              CApiVersion]
    /\ zabbix w2 = Some (mkZabbixAPI ZABBIX_URL EmptyString).
Proof.
  intros Hz Hlogin Hversion.
  unfold test_connection at 1, get_zabbix_connection. run.
  rewrite Hz. simpl. rewrite Hlogin. simpl.
  eexists. eexists. split; [reflexivity|].
  unfold test_connection, get_zabbix_connection. run.
  rewrite Hversion. simpl.
  split_and!; try reflexivity. simpl. by rewrite <- app_assoc.
Qed.
End ConnectionExtras.

(** * Further properties: group resolution and row processing *)

Section RowExtras.
Context {R : Type}.
Variable api : RemoteAPI R.
Variable py : PyLib.
Implicit Types (w : World R) (zapi : ZabbixAPI).
Implicit Types (fd : gmap string (list string)).

(** Every descriptor that is built is an SNMP interface, primary,
    addressed by IP on port 161, whose details start with the version as
    submitted and bulk 0. *)
Lemma build_interface_shape address v fd i :
  build_interface py address v fd = Ok i ->
  if_type i = 2%Z /\ if_main i = 1%Z /\ if_useip i = 1%Z
  /\ if_ip i = address /\ if_dns i = EmptyString /\ if_port i = "161"
  /\ if_details i !! "version" = Some (version_value v)
  /\ if_details i !! "bulk" = Some (VInt 0).
Proof.
  unfold build_interface.
  destruct (decide (v = Some "2")); [by intros [= <-]|].
  destruct (decide (v = Some "3")); [|by intros [= <-]].
  destruct (securitylevel py fd); [|done].
  by intros [= <-].
Qed.

(** X6.  The exception that escapes the group resolver is always the one
    of its fallback listing, which is then the last request sent and the
    last failure logged; the failure that triggered the fallback is never
    the one reported. *)
Theorem get_default_hostgroup_escaping_exception zapi w e w' :
  get_default_hostgroup api zapi w = (Raise e, w') ->
  last (calls w') = Some (CHostgroupGet None)
  /\ last (failures w') = Some (CHostgroupGet None, e)
  /\ exists r, hostgroup_get api (auth zapi) None r = (Raise e, remote w').
Proof.
  unfold get_default_hostgroup. run.
  paths; intros ?; simplify_eq; simpl; rewrite !last_snoc; eauto.
Qed.

(** X7.  A Success outcome is returned only when the create-host request
    was the last one sent for the row and the server answered it with at
    least one identifier; the message carries the first identifier. *)
Theorem create_host_in_zabbix_success_means_created
    zapi hostname address tids v fd w o w' :
  create_host_in_zabbix api py zapi hostname address tids v fd w
    = (Ok o, w') ->
  status o = "success" ->
  exists p r hid hids,
    last (calls w') = Some (CHostCreate p)
    /\ host_create api (auth zapi) p r = (Ok (hid :: hids), remote w')
    /\ o = mkOutcome hostname address "success"
             ("Host criado com sucesso (ID: " +:+ hid +:+ ")").
Proof.
  unfold create_host_in_zabbix, get_default_hostgroup. run.
  paths; intros ? Hstatus; simplify_eq; simpl in *; try discriminate;
    (do 4 eexists; rewrite last_snoc; eauto).
Qed.

(** X8.  Every create-host request a row sends names the host by the
    row's name (as technical and as visible name), is enabled (status 0),
    carries the selected template identifiers in the order submitted,
    exactly one group entry and exactly one interface: SNMP (type 2),
    primary, addressed by the row's IP (not by DNS) on port 161, with the
    submitted version and bulk 0 in its details. *)
Theorem create_host_in_zabbix_create_params
    zapi hostname address tids v fd w o w' p :
  create_host_in_zabbix api py zapi hostname address tids v fd w
    = (Ok o, w') ->
  issued w w' (CHostCreate p) ->
  cp_host p = hostname /\ cp_name p = hostname
  /\ cp_templates p = tids /\ cp_status p = 0%Z
  /\ exists i gid,
      cp_interfaces p = [i] /\ cp_groups p = [gid]
      /\ if_type i = 2%Z /\ if_main i = 1%Z /\ if_useip i = 1%Z
      /\ if_ip i = address /\ if_dns i = EmptyString /\ if_port i = "161"
      /\ if_details i !! "version" = Some (version_value v)
      /\ if_details i !! "bulk" = Some (VInt 0).
Proof.
  intros Hrun Hissued.
  destruct (create_host_in_zabbix_sends_built_interface api py zapi
              hostname address tids v fd w o w' p Hrun Hissued)
    as (i & gid & Hbuild & ->).
  split_and!; try reflexivity.
  exists i, gid. split; [reflexivity|]. split; [reflexivity|].
  by apply build_interface_shape with fd.
Qed.

(** X9.  A version-3 row whose submitted security level does not convert
    to an integer ends in an Error outcome right after the device lookup:
    no group is looked up or created and no create-host request is
    sent. *)
Theorem create_host_in_zabbix_bad_securitylevel
    zapi hostname address tids fd w r1 level :
  host_get api (auth zapi) hostname (remote w) = (Ok [], r1) ->
  form_get fd "snmp_securitylevel" = Some level ->
  int_of_str py level = None ->
  exists message w',
    create_host_in_zabbix api py zapi hostname address tids (Some "3") fd w
      = (Ok (mkOutcome hostname address "error" message), w')
    /\ calls w' = calls w ++ [CHostGet hostname]
    /\ failures w' = failures w
    /\ remote w' = r1.
Proof.
  intros Hget Hlevel Hint.
  unfold create_host_in_zabbix. run. rewrite Hget. simpl.
  unfold build_interface, securitylevel.
  destruct (decide (Some "3" = Some "2")) as [?|_]; [done|].
  destruct (decide (Some "3" = Some "3")) as [_|?]; [|done].
  rewrite Hlevel, Hint. simpl. eauto 10.
Qed.

(** X10.  A row that is not a duplicate and whose group lookup and
    fallback listing both fail ends in an Error outcome that carries the
    listing's failure message, not the lookup's; no create-host request
    is sent. *)
Theorem create_host_in_zabbix_group_unavailable
    zapi hostname address tids v fd w r1 i e1 r2 e2 r3 :
  host_get api (auth zapi) hostname (remote w) = (Ok [], r1) ->
  build_interface py address v fd = Ok i ->
  hostgroup_get api (auth zapi) (Some "Imported Hosts") r1
    = (Raise e1, r2) ->
  hostgroup_get api (auth zapi) None r2 = (Raise e2, r3) ->
  exists w',
    create_host_in_zabbix api py zapi hostname address tids v fd w
      = (Ok (mkOutcome hostname address "error" (str e2)), w')
    /\ calls w' = calls w ++ [CHostGet hostname;
                              CHostgroupGet (Some "Imported Hosts");
                              CHostgroupGet None]
    /\ remote w' = r3.
Proof.
  intros Hget Hbuild Hlookup Hlisting.
  unfold create_host_in_zabbix, get_default_hostgroup. run.
  rewrite Hget. simpl. rewrite Hbuild. simpl. rewrite Hlookup. simpl.
  rewrite Hlisting. simpl.
  eexists. split_and!; try reflexivity. simpl. by rewrite <- !app_assoc.
Qed.

(** Processing a row leaves the global handle as it is. *)
Lemma create_host_in_zabbix_zabbix zapi hostname address tids v fd w res w' :
  create_host_in_zabbix api py zapi hostname address tids v fd w
    = (res, w') ->
  zabbix w' = zabbix w.
Proof.
  unfold create_host_in_zabbix, get_default_hostgroup. run.
  paths; intros; simplify_eq; done.
Qed.

Lemma import_loop_zabbix zapi tids v fd rows :
  forall acc w res w',
    import_loop api py zapi tids v fd rows acc w = (res, w') ->
    zabbix w' = zabbix w.
Proof.
  induction rows as [|row rows IH]; intros acc w res w' Hrun.
  - by injection Hrun as _ <-.
  - simpl in Hrun. unfold row_get, bind at 1 2 3 in Hrun.
    destruct (row_lookup row "nome") as [hostname|]; simpl in Hrun;
      [|by injection Hrun as _ <-].
    destruct (row_lookup row "ip") as [address|]; simpl in Hrun;
      [|by injection Hrun as _ <-].
    destruct (create_host_in_zabbix api py zapi hostname address tids v
                fd w) as [[o|e] w1] eqn:Hrow.
    + apply IH in Hrun. apply create_host_in_zabbix_zabbix in Hrow.
      congruence.
    + injection Hrun as _ <-.
      by apply create_host_in_zabbix_zabbix in Hrow.
Qed.

Lemma looked_up_app cs1 cs2 :
  looked_up (cs1 ++ cs2) = looked_up cs1 ++ looked_up cs2.
Proof.
  induction cs1 as [|c cs1 IH]; [done|].
  destruct c; simpl; by rewrite IH.
Qed.

(** The requests of one row: one device lookup, for the row's name, and
    at most one create-host, which a Success outcome implies. *)
Lemma create_host_in_zabbix_requests
    zapi hostname address tids v fd w o w' :
  create_host_in_zabbix api py zapi hostname address tids v fd w
    = (Ok o, w') ->
  exists new,
    calls w' = calls w ++ new
    /\ looked_up new = [hostname]
    /\ length (List.filter is_host_create new) <= 1
    /\ (status o = "success" ->
        length (List.filter is_host_create new) = 1).
Proof.
  unfold create_host_in_zabbix, get_default_hostgroup. run.
  paths; intros ?; simplify_eq;
    (eexists; split; [simpl; rewrite <- ?app_assoc; reflexivity|]; simpl;
     split_and!; [reflexivity | lia | by intros ?]).
Qed.

Lemma import_loop_requests zapi tids v fd rows :
  Forall (fun row => is_Some (row_lookup row "nome")
                     /\ is_Some (row_lookup row "ip")) rows ->
  forall acc w,
  exists outs w' new,
    import_loop api py zapi tids v fd rows acc w = (Ok (acc ++ outs), w')
    /\ calls w' = calls w ++ new
    /\ looked_up new = map nome outs
    /\ count_success outs <= length (List.filter is_host_create new)
    /\ length (List.filter is_host_create new) <= length rows.
Proof.
  induction 1 as [|row rows [[hostname Hnome] [address Hip]] _ IH];
    intros acc w.
  - exists [], w, []. simpl. rewrite !app_nil_r. split_and!; done.
  - destruct (create_host_in_zabbix_total api py zapi hostname address
                tids v fd w) as (o & w1 & Hrun & Hn & _).
    destruct (create_host_in_zabbix_requests _ _ _ _ _ _ _ _ _ Hrun)
      as (new1 & Hcalls1 & Hlooked1 & Hcreate1 & Hsuccess1).
    destruct (IH (acc ++ [o]) w1)
      as (outs & w' & new & Hloop & Hcalls & Hlooked & Hlow & Hhigh).
    exists (o :: outs), w', (new1 ++ new). split_and!.
    + erewrite import_loop_step by eauto.
      rewrite Hloop. by rewrite <- app_assoc.
    + by rewrite Hcalls, Hcalls1, <- app_assoc.
    + rewrite looked_up_app, Hlooked1, Hlooked. simpl. by rewrite Hn.
    + rewrite List.filter_app, length_app.
      unfold count_success in *. rewrite filter_cons.
      destruct (decide (status o = "success")) as [Hs|_]; simpl; [|lia].
      specialize (Hsuccess1 Hs). lia.
    + rewrite List.filter_app, length_app. simpl. lia.
Qed.

(** X19.  For a valid table the loop looks every row up exactly once and
    in file order: the host names of the device lookups it sends are the
    names of the outcomes, in order.  It sends at least one create-host
    request per Success outcome and at most one per row. *)
Theorem import_loop_requests_in_file_order zapi tids v fd df w :
  valid_table df ->
  exists results w' new,
    import_loop api py zapi tids v fd (iterrows df) [] w = (Ok results, w')
    /\ calls w' = calls w ++ new
    /\ looked_up new = map nome results
    /\ count_success results <= length (List.filter is_host_create new)
    /\ length (List.filter is_host_create new) <= length (data df).
Proof.
  intros Hvalid.
  destruct (import_loop_requests zapi tids v fd (iterrows df)
              (valid_table_rows df Hvalid) [] w)
    as (outs & w' & new & Hloop & Hcalls & Hlooked & Hlow & Hhigh).
  exists outs, w', new. split_and!; try done.
  unfold iterrows in Hhigh. by rewrite length_map in Hhigh.
Qed.
End RowExtras.

(** * Further properties: the import view *)

Section ImportExtras.
Context {R : Type}.
Variable api : RemoteAPI R.
Variable py : PyLib.
Implicit Types (w : World R) (req : Request).

Lemma get_zabbix_connection_never_raises w :
  exists z w', get_zabbix_connection api w = (Ok z, w').
Proof. unfold get_zabbix_connection. run. paths; eauto. Qed.

Lemma get_zabbix_connection_flashes w res w' :
  get_zabbix_connection api w = (res, w') -> flashes w' = flashes w.
Proof.
  unfold get_zabbix_connection. run.
  paths; intros; simplify_eq; done.
Qed.

Lemma get_zabbix_connection_keeps_handle w z res w' :
  zabbix w = Some z ->
  get_zabbix_connection api w = (res, w') -> zabbix w' = Some z.
Proof.
  intros Hz. rewrite (get_zabbix_connection_reuse api w z Hz).
  by intros [= _ <-].
Qed.

Lemma create_host_in_zabbix_flashes
    zapi hostname address tids v fd w res w' :
  create_host_in_zabbix api py zapi hostname address tids v fd w
    = (res, w') ->
  flashes w' = flashes w.
Proof.
  unfold create_host_in_zabbix, get_default_hostgroup. run.
  paths; intros; simplify_eq; done.
Qed.

Lemma import_loop_flashes zapi tids v fd rows :
  forall acc w res w',
    import_loop api py zapi tids v fd rows acc w = (res, w') ->
    flashes w' = flashes w.
Proof.
  induction rows as [|row rows IH]; intros acc w res w' Hrun.
  - by injection Hrun as _ <-.
  - simpl in Hrun. unfold row_get, bind at 1 2 3 in Hrun.
    destruct (row_lookup row "nome") as [hostname|]; simpl in Hrun;
      [|by injection Hrun as _ <-].
    destruct (row_lookup row "ip") as [address|]; simpl in Hrun;
      [|by injection Hrun as _ <-].
    destruct (create_host_in_zabbix api py zapi hostname address tids v
                fd w) as [[o|e] w1] eqn:Hrow.
    + apply IH in Hrun. apply create_host_in_zabbix_flashes in Hrow.
      congruence.
    + injection Hrun as _ <-.
      by apply create_host_in_zabbix_flashes in Hrow.
Qed.

(** X12.  A submission without a file, with an empty file name, or with
    a file name that does not end in [.csv] is rejected before anything
    is stored: one error is flashed, the upload folder is unchanged and
    no remote request is sent. *)
Theorem import_hosts_rejects_bad_upload req w :
  (csv_file req = None
   \/ exists file,
       csv_file req = Some file
       /\ (filename file = EmptyString
           \/ endswith (filename file) ".csv" = false)) ->
  exists message w',
    import_hosts api py req w = (Ok (Redirect "index"), w')
    /\ flashes w' = flashes w ++ [(message, "error")]
    /\ message ∈ ["Nenhum arquivo enviado"; "Nenhum arquivo selecionado";
                  "Por favor, envie um arquivo CSV"]
    /\ files w' = files w
    /\ calls w' = calls w
    /\ remote w' = remote w.
Proof.
  unfold import_hosts. run.
  intros [Hnone | (file & Hfile & Hbad)]; rewrite ?Hnone, ?Hfile; simpl.
  - do 2 eexists. split_and!; try reflexivity. apply list_elem_of_here.
  - destruct (decide (filename file = EmptyString)) as [?|Hne]; simpl.
    + do 2 eexists. split_and!; try reflexivity.
      apply list_elem_of_further, list_elem_of_here.
    + destruct Hbad as [? | Hext]; [done|]. rewrite Hext. simpl.
      do 2 eexists. split_and!; try reflexivity.
      do 2 apply list_elem_of_further. apply list_elem_of_here.
Qed.

(** X13.  When [pd.read_csv] raises on the uploaded file the view
    redirects with the message "Erro ao processar importação: ..."
    carrying the exception text, sends no remote request, and the
    uploaded file is left in the upload folder: this path never reaches
    [os.remove]. *)
Theorem import_hosts_unreadable_csv_keeps_upload req w file e :
  csv_file req = Some file ->
  filename file <> EmptyString ->
  endswith (filename file) ".csv" = true ->
  read_csv py (content file) = Raise e ->
  exists w',
    import_hosts api py req w = (Ok (Redirect "index"), w')
    /\ flashes w' = flashes w
                     ++ [("Erro ao processar importação: " +:+ str e,
                          "error")]
    /\ files w' = <[path_join UPLOAD_FOLDER
                      (secure_filename py (filename file)) :=
                      content file]> (files w)
    /\ calls w' = calls w.
Proof.
  intros Hfile Hname Hcsv Hread.
  unfold import_hosts, file_save, pd_read_csv. run.
  rewrite Hfile, Hcsv. simpl.
  destruct (decide (filename file = EmptyString)) as [?|_]; [done|].
  rewrite lookup_insert_eq, Hread. simpl. eauto.
Qed.

(** X14.  Whenever the uploaded file parses into a table with one cell
    per column, the view removes the temporary file on every path: a
    missing column, no template, no connection, or a completed batch. *)
Theorem import_hosts_removes_upload req w file df :
  csv_file req = Some file ->
  filename file <> EmptyString ->
  endswith (filename file) ".csv" = true ->
  read_csv py (content file) = Ok df ->
  Forall (fun cells => length cells = length (columns df)) (data df) ->
  exists response w',
    import_hosts api py req w = (Ok response, w')
    /\ files w' = delete (path_join UPLOAD_FOLDER
                            (secure_filename py (filename file)))
                         (files w).
Proof.
  intros Hfile Hname Hcsv Hread Hwf.
  unfold import_hosts, file_save, pd_read_csv, os_remove.
  unfold try_except, bind, flash, ret.
  rewrite Hfile, Hcsv. simpl.
  destruct (decide (filename file = EmptyString)) as [?|_]; [done|].
  simpl. rewrite lookup_insert_eq, Hread.
  set (path := path_join UPLOAD_FOLDER (secure_filename py (filename file))).
  destruct (has_required_columns df) eqn:Hcols; simpl;
    [|rewrite lookup_insert_eq; do 2 eexists; split; [reflexivity|];
      apply delete_insert_eq].
  destruct (form_getlist (form req) "templates[]") as [|tid tids]; simpl;
    [rewrite lookup_insert_eq; do 2 eexists; split; [reflexivity|];
     apply delete_insert_eq|].
  destruct (get_zabbix_connection_never_raises
              (set_files (<[path := content file]> (files w)) w))
    as (z & w1 & Hconn).
  rewrite Hconn.
  pose proof (get_zabbix_connection_files api _ _ _ Hconn) as Hfiles1.
  simpl in Hfiles1.
  destruct z as [zapi|]; simpl.
  - destruct (import_loop_outcomes api py zapi (tid :: tids)
                (form_get (form req) "snmp_version") (form req)
                (iterrows df)
                (valid_table_rows df (conj Hcols Hwf)) [] w1)
      as (results & w2 & Hloop & _).
    simpl in Hloop. rewrite Hloop.
    pose proof (import_loop_files api py _ _ _ _ _ _ _ _ _ Hloop)
      as Hfiles2.
    rewrite Hfiles2, Hfiles1, lookup_insert_eq.
    do 2 eexists. split; [reflexivity|]. simpl.
    rewrite ?Hfiles2, ?Hfiles1. apply delete_insert_eq.
  - rewrite Hfiles1, lookup_insert_eq.
    do 2 eexists. split; [reflexivity|]. simpl.
    rewrite ?Hfiles1. apply delete_insert_eq.
Qed.

(** X16.  On a fresh process whose login is refused, a submission that
    passed every input check is stopped: the view flashes "Erro ao
    conectar ao Zabbix", removes the upload, processes no row, and the
    login is the only request sent. *)
Theorem import_hosts_connection_refused req w file df tid tids e r1 :
  csv_file req = Some file ->
  filename file <> EmptyString ->
  endswith (filename file) ".csv" = true ->
  read_csv py (content file) = Ok df ->
  has_required_columns df = true ->
  form_getlist (form req) "templates[]" = tid :: tids ->
  zabbix w = None ->
  user_login api ZABBIX_USER ZABBIX_PASSWORD (remote w) = (Raise e, r1) ->
  exists w',
    import_hosts api py req w = (Ok (Redirect "index"), w')
    /\ flashes w' = flashes w ++ [("Erro ao conectar ao Zabbix", "error")]
    /\ calls w' = calls w ++ [CLogin ZABBIX_USER ZABBIX_PASSWORD]
    /\ files w' = delete (path_join UPLOAD_FOLDER
                            (secure_filename py (filename file)))
                         (files w).
Proof.
  intros Hfile Hname Hcsv Hread Hcols Htpl Hz Hlogin.
  unfold import_hosts, file_save, pd_read_csv, os_remove,
    get_zabbix_connection. run.
  rewrite Hfile, Hcsv. simpl.
  destruct (decide (filename file = EmptyString)) as [?|_]; [done|].
  rewrite lookup_insert_eq, Hread, Hcols, Htpl. simpl.
  rewrite Hz. simpl. rewrite Hlogin. simpl.
  rewrite lookup_insert_eq.
  eexists. split_and!; try reflexivity. simpl. apply delete_insert_eq.
Qed.

(** A submission leaves a handle that the global already holds in
    place, whatever path it takes. *)
Lemma import_hosts_zabbix req w z res w' :
  zabbix w = Some z ->
  import_hosts api py req w = (res, w') ->
  zabbix w' = Some z.
Proof.
  intros Hz. unfold import_hosts, file_save, pd_read_csv, os_remove. run.
  paths; intros; simplify_eq; simpl;
    repeat match goal with
           | H : import_loop _ _ _ _ _ _ _ _ _ = _ |- _ =>
               apply import_loop_zabbix in H; simpl in H
           | H : get_zabbix_connection _ _ = _ |- _ =>
               apply (get_zabbix_connection_keeps_handle _ z) in H;
               [|done]
           end;
    congruence.
Qed.

(** X17.  No view ever replaces a handle the global already holds:
    after any submission, template listing or connectivity check the
    global is the same handle as before, so a session is never
    re-established. *)
Theorem views_keep_cached_handle req w z :
  zabbix w = Some z ->
  zabbix (snd (import_hosts api py req w)) = Some z
  /\ zabbix (snd (get_templates api w)) = Some z
  /\ zabbix (snd (test_connection api w)) = Some z.
Proof.
  intros Hz. split_and!.
  - destruct (import_hosts api py req w) as [res w'] eqn:Hrun.
    by apply (import_hosts_zabbix req w z res w').
  - unfold get_templates, try_except, bind.
    rewrite (get_zabbix_connection_reuse api w z Hz).
    run. by paths.
  - unfold test_connection, try_except, bind.
    rewrite (get_zabbix_connection_reuse api w z Hz).
    run. by paths.
Qed.

(** X18.  The import view never raises.  It either redirects to the index
    page after flashing at least one message, every one of them in the
    "error" category, or renders the outcome list with its two counts
    and flashes nothing. *)
Theorem import_hosts_never_raises req w :
  exists response w',
    import_hosts api py req w = (Ok response, w')
    /\ ((response = Redirect "index"
         /\ exists messages,
             messages <> []
             /\ flashes w' = flashes w ++ messages
             /\ Forall (fun m => m.2 = "error") messages)
        \/ (exists results,
              response = Render results (count_success results)
                           (length results - count_success results)
              /\ flashes w' = flashes w)).
Proof.
  unfold import_hosts, file_save, pd_read_csv, os_remove. run.
  paths;
    repeat match goal with
           | H : import_loop _ _ _ _ _ _ _ _ _ = _ |- _ =>
               apply import_loop_flashes in H; simpl in H
           | H : get_zabbix_connection _ _ = _ |- _ =>
               apply get_zabbix_connection_flashes in H; simpl in H
           end;
    (do 2 eexists; split; [reflexivity|]; simpl;
     first [ right; eexists; split; [reflexivity|]; congruence
           | left; split; [reflexivity|];
             repeat match goal with
                    | H : flashes _ = _ |- _ => rewrite H; clear H
                    end;
             rewrite <- ?app_assoc; eexists; split_and!;
             [ | reflexivity | repeat constructor ]; done ]).
Qed.

(** X20.  A table with the required columns and no record is not an
    error: on a connected process the view renders an empty outcome list
    with both counts 0, flashes nothing, sends no remote request and
    removes the upload. *)
Theorem import_hosts_empty_table req w file df tid tids z :
  csv_file req = Some file ->
  filename file <> EmptyString ->
  endswith (filename file) ".csv" = true ->
  read_csv py (content file) = Ok df ->
  has_required_columns df = true ->
  data df = [] ->
  form_getlist (form req) "templates[]" = tid :: tids ->
  zabbix w = Some z ->
  exists w',
    import_hosts api py req w = (Ok (Render [] 0 0), w')
    /\ calls w' = calls w
    /\ flashes w' = flashes w
    /\ files w' = delete (path_join UPLOAD_FOLDER
                            (secure_filename py (filename file)))
                         (files w).
Proof.
  intros Hfile Hname Hcsv Hread Hcols Hdata Htpl Hz.
  unfold import_hosts, file_save, pd_read_csv, os_remove,
    get_zabbix_connection, iterrows. run.
  rewrite Hfile, Hcsv. simpl.
  destruct (decide (filename file = EmptyString)) as [?|_]; [done|].
  rewrite lookup_insert_eq, Hread, Hcols, Htpl. simpl.
  rewrite Hz. simpl. rewrite Hz, Hdata. simpl.
  rewrite lookup_insert_eq.
  eexists. split_and!; try reflexivity. simpl. apply delete_insert_eq.
Qed.
End ImportExtras.

(** * The theorems at concrete inputs *)

Section Concrete.
Import Examples.

(** The scenario of two rows, the first of which already exists. *)
Example import_hosts_two_rows_one_existing :
  fst (import_hosts Sim.api Sim.py
         (mkRequest (Some upload_two_hosts) form_v2)
         (Sim.world server_with_host_a))
  = Ok (Render
          [mkOutcome "host-a" "10.0.0.1" "error" "Host host-a já existe";
           mkOutcome "host-b" "10.0.0.2" "success"
                     "Host criado com sucesso (ID: 10085)"]
          1 1).
Proof. vm_compute. reflexivity. Qed.

(** C1 on the two-row table. *)
Lemma import_loop_one_outcome_per_row_witness :
  valid_table df_two_hosts
  /\ exists results w',
      import_loop Sim.api Sim.py Sim.handle ["10001"] (Some "2") form_v2
        (iterrows df_two_hosts) [] (Sim.world server_with_host_a)
        = (Ok results, w')
      /\ length results = length (data df_two_hosts)
      /\ map outcome_key results = map row_key (iterrows df_two_hosts).
Proof.
  assert (valid_table df_two_hosts) as Hvalid.
  { split; [reflexivity|]. repeat constructor. }
  split; [exact Hvalid|].
  apply (import_loop_one_outcome_per_row Sim.api Sim.py Sim.handle
           ["10001"] (Some "2") form_v2 df_two_hosts
           (Sim.world server_with_host_a) Hvalid).
Defined.

(** C2 on a server that already monitors [host-a]. *)
Lemma create_host_in_zabbix_existing_witness :
  host_get Sim.api (auth Sim.handle) "host-a"
    (remote (Sim.world server_with_host_a))
    = (Ok [host_a], server_with_host_a)
  /\ exists w' new,
      create_host_in_zabbix Sim.api Sim.py Sim.handle "host-a" "10.0.0.1"
        ["10001"] (Some "2") form_v2 (Sim.world server_with_host_a)
        = (Ok (mkOutcome "host-a" "10.0.0.1" "error"
                 ("Host " +:+ "host-a" +:+ " já existe")), w')
      /\ calls w' = calls (Sim.world server_with_host_a) ++ new
      /\ new = [CHostGet "host-a"]
      /\ (forall p, CHostCreate p ∉ new)
      /\ remote w' = server_with_host_a.
Proof.
  assert (host_get Sim.api (auth Sim.handle) "host-a"
            (remote (Sim.world server_with_host_a))
          = (Ok [host_a], server_with_host_a)) as Hget.
  { vm_compute. reflexivity. }
  split; [exact Hget|].
  apply (create_host_in_zabbix_existing Sim.api Sim.py Sim.handle "host-a"
           "10.0.0.1" ["10001"] (Some "2") form_v2
           (Sim.world server_with_host_a) host_a [] server_with_host_a Hget).
Defined.

(** C3 (amended) on a version-3 form. *)
Lemma build_interface_details_by_version_witness :
  exists i,
    build_interface Sim.py "10.0.0.1" (Some "3") form_v3 = Ok i
    /\ dom (if_details i)
       = {[ "version"; "bulk" ]} ∪ list_to_set v3_fields
    /\ Forall (fun k => is_Some (if_details i !! k)) v3_fields
    /\ length v3_fields = 7
    /\ NoDup v3_fields
    /\ if_details i !! "community" = None.
Proof.
  destruct (build_interface Sim.py "10.0.0.1" (Some "3") form_v3)
    as [i|e] eqn:Hbuild; [|by vm_compute in Hbuild].
  exists i. split; [reflexivity|].
  destruct (build_interface_details_by_version Sim.api Sim.py "10.0.0.1"
              form_v3) as (_ & Hv3 & _).
  exact (Hv3 i Hbuild).
Defined.

(** C3, counterexample.  A version-3 descriptor carries seven version-3
    fields next to version and bulk, not six. *)
Lemma build_interface_v3_six_fields_counterexample :
  exists i,
    build_interface Sim.py "10.0.0.1" (Some "3") form_v3 = Ok i
    /\ size (dom (if_details i) ∖ {[ "version"; "bulk" ]}) = 7
    /\ size (dom (if_details i) ∖ {[ "version"; "bulk" ]}) <> 6.
Proof.
  eexists. split; [vm_compute; reflexivity|].
  split; [vm_compute; reflexivity|]. vm_compute. discriminate.
Qed.

(** C4 (amended) on a server without groups that refuses to create one:
    the resolver returns [None] and the row's create-host request carries
    the null identifier. *)
Lemma get_default_hostgroup_policy_witness :
  let w0 := Sim.world server_without_groups in
  let w := answered (CHostGet "host-b") (Ok ([] : list Host))
             server_without_groups w0 in
  let i := mkInterface 2 1 1 "10.0.0.2" EmptyString "161"
             (<["community" := VStr "monitor"]>
                (plain_details (Some "2"))) in
  (exists w2,
      get_default_hostgroup Sim.api Sim.handle w = (Ok None, w2)
      /\ calls w2 = calls w ++ [CHostgroupGet (Some "Imported Hosts");
                                CHostgroupCreate "Imported Hosts";
                                CHostgroupGet None]
      /\ remote w2 = server_without_groups)
  /\ exists o w',
      create_host_in_zabbix Sim.api Sim.py Sim.handle "host-b" "10.0.0.2"
        ["10001"] (Some "2") form_v2 w0 = (Ok o, w')
      /\ calls w'
         = calls (snd (get_default_hostgroup Sim.api Sim.handle w))
             ++ [CHostCreate
                   (make_create_params "host-b" i None ["10001"])]
      /\ cp_groups (make_create_params "host-b" i None ["10001"])
         = [None].
Proof.
  intros w0 w i.
  destruct (get_default_hostgroup_policy Sim.api Sim.py Sim.handle w)
    as (_ & _ & Hfailed & _ & _ & Hsent).
  split.
  - apply (Hfailed server_without_groups
             (Raise (ZabbixAPIException
                       "No permissions to call 'hostgroup.create'."))
             server_without_groups (Ok []) server_without_groups).
    + vm_compute. reflexivity.
    + vm_compute. reflexivity.
    + intros gid ids. discriminate.
    + vm_compute. reflexivity.
  - apply (Hsent "host-b" "10.0.0.2" ["10001"] (Some "2") form_v2 w0
             server_without_groups i None).
    + vm_compute. reflexivity.
    + vm_compute. reflexivity.
    + reflexivity.
    + vm_compute. reflexivity.
Defined.

(** C4, counterexample.  No group exists and none can be created: the
    resolver does not fail, it returns [None], and the row's create-host
    call is then sent with a null group identifier. *)
Lemma get_default_hostgroup_no_group_counterexample :
  hostgroup_get Sim.api Sim.token None server_without_groups
    = (Ok [], server_without_groups)
  /\ fst (get_default_hostgroup Sim.api Sim.handle
            (Sim.world server_without_groups)) = Ok None
  /\ (forall e,
        fst (get_default_hostgroup Sim.api Sim.handle
               (Sim.world server_without_groups)) <> Raise e)
  /\ exists p,
      last (calls (snd (create_host_in_zabbix Sim.api Sim.py Sim.handle
                          "host-b" "10.0.0.2" ["10001"] (Some "2") form_v2
                          (Sim.world server_without_groups))))
        = Some (CHostCreate p)
      /\ cp_groups p = [None].
Proof.
  split_and!.
  - vm_compute. reflexivity.
  - vm_compute. reflexivity.
  - intros e. vm_compute. discriminate.
  - eexists. split; vm_compute; reflexivity.
Qed.

(** C5 on a server that refuses the fixed credentials. *)
Lemma get_zabbix_connection_after_failed_login_witness :
  zabbix (Sim.world server_other_password) = None
  /\ exists w1,
      get_zabbix_connection Sim.api (Sim.world server_other_password)
        = (Ok None, w1)
      /\ calls w1 = calls (Sim.world server_other_password)
                      ++ [CLogin ZABBIX_USER ZABBIX_PASSWORD]
      /\ zabbix w1 = Some (mkZabbixAPI ZABBIX_URL EmptyString)
      /\ get_zabbix_connection Sim.api w1
         = (Ok (Some (mkZabbixAPI ZABBIX_URL EmptyString)), w1).
Proof.
  split; [reflexivity|].
  apply (get_zabbix_connection_after_failed_login Sim.api
           (Sim.world server_other_password)
           (ZabbixAPIException "Login name or password is incorrect.")
           server_other_password).
  - reflexivity.
  - vm_compute. reflexivity.
Defined.

(** After the refused login a second submission is not stopped: the loop
    runs with the unauthenticated handle and every row ends in the
    server's refusal. *)
Example import_hosts_after_failed_login :
  let req := mkRequest (Some upload_two_hosts) form_v2 in
  let first := import_hosts Sim.api Sim.py req
                 (Sim.world server_other_password) in
  fst first = Ok (Redirect "index")
  /\ flashes (snd first) = [("Erro ao conectar ao Zabbix", "error")]
  /\ fst (import_hosts Sim.api Sim.py req (snd first))
     = Ok (Render
             [mkOutcome "host-a" "10.0.0.1" "error" "Not authorised.";
              mkOutcome "host-b" "10.0.0.2" "error" "Not authorised."]
             0 2).
Proof. vm_compute. done. Qed.

(** C6 (amended) on the table under the English header. *)
Lemma import_hosts_missing_column_witness :
  ("nome" ∉ columns df_english_header \/ "ip" ∉ columns df_english_header)
  /\ exists w',
      import_hosts Sim.api Sim.py
        (mkRequest (Some upload_english_header) form_v2)
        (Sim.world Sim.server0) = (Ok (Redirect "index"), w')
      /\ flashes w' = flashes (Sim.world Sim.server0)
                        ++ [("O CSV deve conter as colunas: nome, ip",
                             "error")]
      /\ calls w' = calls (Sim.world Sim.server0)
      /\ remote w' = remote (Sim.world Sim.server0).
Proof.
  assert ("nome" ∉ columns df_english_header
          \/ "ip" ∉ columns df_english_header) as Hcols.
  { left. apply (bool_decide_unpack _). vm_compute. exact I. }
  split; [exact Hcols|].
  apply (import_hosts_missing_column Sim.api Sim.py
           (mkRequest (Some upload_english_header) form_v2)
           (Sim.world Sim.server0) upload_english_header
           df_english_header).
  - reflexivity.
  - discriminate.
  - vm_compute. reflexivity.
  - vm_compute. reflexivity.
  - exact Hcols.
Defined.

(** C6, counterexample.  A table under the header [nome,ip] has neither a
    column [name] nor a column [address], and yet the import is not
    rejected: both rows are processed and remote requests are sent. *)
Lemma import_hosts_required_columns_counterexample :
  let run := import_hosts Sim.api Sim.py
               (mkRequest (Some upload_two_hosts) form_v2)
               (Sim.world Sim.server0) in
  read_csv Sim.py (content upload_two_hosts) = Ok df_two_hosts
  /\ ("name" ∉ columns df_two_hosts)
  /\ ("address" ∉ columns df_two_hosts)
  /\ fst run
     = Ok (Render
             [mkOutcome "host-a" "10.0.0.1" "success"
                        "Host criado com sucesso (ID: 10085)";
              mkOutcome "host-b" "10.0.0.2" "success"
                        "Host criado com sucesso (ID: 10086)"]
             2 0)
  /\ length (calls (snd run)) = 9.
Proof.
  split_and!.
  - vm_compute. reflexivity.
  - apply (bool_decide_unpack _). vm_compute. exact I.
  - apply (bool_decide_unpack _). vm_compute. exact I.
  - vm_compute. reflexivity.
  - vm_compute. reflexivity.
Qed.

(** C7 on a form that selects no template. *)
Lemma import_hosts_no_templates_witness :
  form_getlist form_no_templates "templates[]" = []
  /\ exists w' message,
      import_hosts Sim.api Sim.py
        (mkRequest (Some upload_two_hosts) form_no_templates)
        (Sim.world Sim.server0) = (Ok (Redirect "index"), w')
      /\ flashes w' = flashes (Sim.world Sim.server0)
                        ++ [(message, "error")]
      /\ calls w' = calls (Sim.world Sim.server0)
      /\ remote w' = remote (Sim.world Sim.server0).
Proof.
  split; [reflexivity|].
  apply (import_hosts_no_templates Sim.api Sim.py
           (mkRequest (Some upload_two_hosts) form_no_templates)
           (Sim.world Sim.server0)).
  reflexivity.
Defined.

(** C8 (amended) on a row whose device lookup fails in transport, and on
    a row whose create-host request is answered without identifier: both
    end in that row's Error outcome. *)
Lemma create_host_in_zabbix_isolates_row_witness :
  (exists o,
      fst (create_host_in_zabbix Sim.api Sim.py Sim.handle "host-a"
             "10.0.0.1" ["10001"] (Some "2") form_v2
             (Sim.world server_down)) = Ok o
      /\ o = mkOutcome "host-a" "10.0.0.1" "error"
               (str (ConnectionError "Connection refused")))
  /\ (exists o,
        fst (create_host_in_zabbix api_silent Sim.py Sim.handle "host-b"
               "10.0.0.2" ["10001"] (Some "2") form_v2
               (Sim.world server_with_group)) = Ok o
        /\ o = mkOutcome "host-b" "10.0.0.2" "error"
                 "list index out of range").
Proof.
  split.
  - destruct (create_host_in_zabbix_isolates_row Sim.api Sim.py Sim.handle
                "host-a" "10.0.0.1" ["10001"] (Some "2") form_v2
                (Sim.world server_down))
      as (o & w' & new & failed & Hrun & _ & _ & _ & _ & Hfailures & _
          & Hfail & _).
    assert (create_host_in_zabbix Sim.api Sim.py Sim.handle "host-a"
              "10.0.0.1" ["10001"] (Some "2") form_v2
              (Sim.world server_down)
            = (Ok (mkOutcome "host-a" "10.0.0.1" "error"
                     "Connection refused"),
               snd (create_host_in_zabbix Sim.api Sim.py Sim.handle
                      "host-a" "10.0.0.1" ["10001"] (Some "2") form_v2
                      (Sim.world server_down)))) as Hconcrete.
    { vm_compute. reflexivity. }
    exists o. split; [by rewrite Hrun|].
    rewrite Hconcrete in Hrun. injection Hrun as _ Hworld.
    rewrite <- Hworld in Hfailures. vm_compute in Hfailures.
    apply (Hfail (CHostGet "host-a")
             (ConnectionError "Connection refused")).
    + rewrite <- Hfailures. apply list_elem_of_here.
    + discriminate.
    + discriminate.
  - destruct (create_host_in_zabbix_isolates_row api_silent Sim.py
                Sim.handle "host-b" "10.0.0.2" ["10001"] (Some "2")
                form_v2 (Sim.world server_with_group))
      as (o & w' & new & failed & Hrun & _ & _ & _ & _ & _ & _ & _ & _
          & _ & _ & _ & _ & _ & _ & _ & Hempty).
    exists o. split; [by rewrite Hrun|].
    apply (Hempty server_with_group
             (mkInterface 2 1 1 "10.0.0.2" EmptyString "161"
                (<["community" := VStr "monitor"]>
                   (plain_details (Some "2"))))
             (Some "17")
             (answered (CHostgroupGet (Some "Imported Hosts"))
                (Ok [imported_hosts]) server_with_group
                (answered (CHostGet "host-b") (Ok ([] : list Host))
                   server_with_group (Sim.world server_with_group)))
             server_with_group).
    + vm_compute. reflexivity.
    + vm_compute. reflexivity.
    + vm_compute. reflexivity.
    + vm_compute. reflexivity.
Defined.

(** C8, counterexample.  The resolver's lookup fails during the row's
    processing, the fallback listing answers, and the row ends in a
    Success outcome: that failure is not captured as the row's Error. *)
Lemma create_host_in_zabbix_absorbed_failure_counterexample :
  let run := create_host_in_zabbix Sim.api Sim.py Sim.handle "host-a"
               "10.0.0.1" ["10001"] (Some "2") form_v2
               (Sim.world server_flaky) in
  failures (snd run)
    = [(CHostgroupGet (Some "Imported Hosts"),
        ConnectionError "Connection refused")]
  /\ fst run = Ok (mkOutcome "host-a" "10.0.0.1" "success"
                     "Host criado com sucesso (ID: 10084)")
  /\ status (mkOutcome "host-a" "10.0.0.1" "success"
               "Host criado com sucesso (ID: 10084)") <> "error".
Proof.
  split_and!.
  - vm_compute. reflexivity.
  - vm_compute. reflexivity.
  - discriminate.
Qed.


(** When the group does not exist yet, the first resolution creates it
    and the second one finds it: one group, one identifier. *)
Example get_default_hostgroup_creates_once :
  let first := get_default_hostgroup Sim.api Sim.handle
                 (Sim.world Sim.server0) in
  let second := get_default_hostgroup Sim.api Sim.handle (snd first) in
  fst first = Ok (Some "10084")
  /\ fst second = Ok (Some "10084")
  /\ Sim.sv_groups (remote (snd second))
     = [mkHostGroup "10084" "Imported Hosts"].
Proof. vm_compute. done. Qed.

End Concrete.

Section ConcreteExtras.
Import Examples.

(** X1 on the reference server. *)
Lemma get_zabbix_connection_login_once_witness :
  exists w1,
    get_zabbix_connection Sim.api (Sim.world Sim.server0)
      = (Ok (Some (mkZabbixAPI ZABBIX_URL Sim.token)), w1)
    /\ get_zabbix_connection Sim.api w1
       = (Ok (Some (mkZabbixAPI ZABBIX_URL Sim.token)), w1)
    /\ calls w1 = calls (Sim.world Sim.server0)
                    ++ [CLogin ZABBIX_USER ZABBIX_PASSWORD; CApiVersion]
    /\ failures w1 = failures (Sim.world Sim.server0)
    /\ stdout w1 = stdout (Sim.world Sim.server0)
                     ++ ["Conectado ao Zabbix API versão " +:+ "6.0.0"].
Proof.
  apply (get_zabbix_connection_login_once Sim.api (Sim.world Sim.server0)
           Sim.token Sim.server0 "6.0.0" Sim.server0).
  - reflexivity.
  - vm_compute. reflexivity.
  - vm_compute. reflexivity.
Defined.

(** X2 on a server that refuses the fixed credentials. *)
Lemma get_zabbix_connection_none_only_on_failure_witness :
  exists z w',
    get_zabbix_connection Sim.api (Sim.world server_other_password)
      = (Ok z, w')
    /\ (z = None ->
        exists c e,
          failures w' = failures (Sim.world server_other_password)
                          ++ [(c, e)]
          /\ (c = CLogin ZABBIX_USER ZABBIX_PASSWORD \/ c = CApiVersion)
          /\ last (stdout w')
             = Some ("Erro ao conectar ao Zabbix: " +:+ str e))
    /\ (forall h, z = Some h -> zabbix w' = Some h).
Proof.
  apply (get_zabbix_connection_none_only_on_failure Sim.api
           (Sim.world server_other_password)).
Defined.

(** X3 on a server whose second request fails. *)
Lemma get_zabbix_connection_version_probe_failure_witness :
  exists w1,
    get_zabbix_connection Sim.api (Sim.world server_flaky) = (Ok None, w1)
    /\ zabbix w1 = Some (mkZabbixAPI ZABBIX_URL Sim.token)
    /\ calls w1 = calls (Sim.world server_flaky)
                    ++ [CLogin ZABBIX_USER ZABBIX_PASSWORD; CApiVersion]
    /\ get_zabbix_connection Sim.api w1
       = (Ok (Some (mkZabbixAPI ZABBIX_URL Sim.token)), w1).
Proof.
  apply (get_zabbix_connection_version_probe_failure Sim.api
           (Sim.world server_flaky) Sim.token
           (Sim.set_faults [true] server_flaky)
           (ConnectionError "Connection refused")
           (Sim.set_faults [] server_flaky)).
  - reflexivity.
  - vm_compute. reflexivity.
  - vm_compute. reflexivity.
Defined.

(** X4 on a connected process. *)
Lemma get_templates_response_witness :
  exists body code w',
    get_templates Sim.api (connected_world Sim.server0)
      = (Ok (Json body code), w')
    /\ ((code = 200%Z
         /\ exists z r templates,
             zabbix w' = Some z
             /\ template_get Sim.api (auth z) r = (Ok templates, remote w')
             /\ body = JTemplates
                         (map (fun t => (templateid t, tpl_name t))
                              templates)
             /\ last (calls w') = Some CTemplateGet)
        \/ (code = 500%Z /\ exists message,
               body = JObject [("error", message)])).
Proof.
  apply (get_templates_response Sim.api (connected_world Sim.server0)).
Defined.

(** X5 on a server that refuses the fixed credentials. *)
Lemma test_connection_after_failed_login_witness :
  exists w1 w2,
    test_connection Sim.api (Sim.world server_other_password)
      = (Ok (Json (JObject [("status", "error");
                            ("message",
                             "Não foi possível conectar ao Zabbix")])
                  500), w1)
    /\ test_connection Sim.api w1
       = (Ok (Json (JObject [("status", "success");
                             ("message",
                              "Conectado ao Zabbix " +:+ "6.0.0")])
                   200), w2)
    /\ calls w2 = calls (Sim.world server_other_password)
                    ++ [CLogin ZABBIX_USER ZABBIX_PASSWORD; CApiVersion]
    /\ zabbix w2 = Some (mkZabbixAPI ZABBIX_URL EmptyString).
Proof.
  apply (test_connection_after_failed_login Sim.api
           (Sim.world server_other_password)
           (ZabbixAPIException "Login name or password is incorrect.")
           server_other_password "6.0.0" server_other_password).
  - reflexivity.
  - vm_compute. reflexivity.
  - vm_compute. reflexivity.
Defined.

(** X6 on a server whose transport is down. *)
Lemma get_default_hostgroup_escaping_exception_witness :
  let run := get_default_hostgroup Sim.api Sim.handle
               (Sim.world server_down) in
  last (calls (snd run)) = Some (CHostgroupGet None)
  /\ last (failures (snd run))
     = Some (CHostgroupGet None, ConnectionError "Connection refused")
  /\ exists r,
      hostgroup_get Sim.api (auth Sim.handle) None r
      = (Raise (ConnectionError "Connection refused"), remote (snd run)).
Proof.
  intros run.
  apply (get_default_hostgroup_escaping_exception Sim.api Sim.handle
           (Sim.world server_down)
           (ConnectionError "Connection refused") (snd run)).
  vm_compute. reflexivity.
Defined.

(** X7 on a new host. *)
Lemma create_host_in_zabbix_success_means_created_witness :
  let run := create_host_in_zabbix Sim.api Sim.py Sim.handle "host-b"
               "10.0.0.2" ["10001"] (Some "2") form_v2
               (Sim.world server_with_group) in
  let o := mkOutcome "host-b" "10.0.0.2" "success"
             "Host criado com sucesso (ID: 10084)" in
  exists p r hid hids,
    last (calls (snd run)) = Some (CHostCreate p)
    /\ host_create Sim.api (auth Sim.handle) p r
       = (Ok (hid :: hids), remote (snd run))
    /\ o = mkOutcome "host-b" "10.0.0.2" "success"
             ("Host criado com sucesso (ID: " +:+ hid +:+ ")").
Proof.
  intros run o.
  apply (create_host_in_zabbix_success_means_created Sim.api Sim.py
           Sim.handle "host-b" "10.0.0.2" ["10001"] (Some "2") form_v2
           (Sim.world server_with_group) o (snd run)).
  - vm_compute. reflexivity.
  - reflexivity.
Defined.

(** X8 on a new host. *)
Lemma create_host_in_zabbix_create_params_witness :
  let p := make_create_params "host-b"
             (mkInterface 2 1 1 "10.0.0.2" EmptyString "161"
                (<["community" := VStr "monitor"]>
                   (plain_details (Some "2"))))
             (Some "17") ["10001"] in
  cp_host p = "host-b" /\ cp_name p = "host-b"
  /\ cp_templates p = ["10001"] /\ cp_status p = 0%Z
  /\ exists i gid,
      cp_interfaces p = [i] /\ cp_groups p = [gid]
      /\ if_type i = 2%Z /\ if_main i = 1%Z /\ if_useip i = 1%Z
      /\ if_ip i = "10.0.0.2" /\ if_dns i = EmptyString
      /\ if_port i = "161"
      /\ if_details i !! "version" = Some (version_value (Some "2"))
      /\ if_details i !! "bulk" = Some (VInt 0).
Proof.
  intros p.
  apply (create_host_in_zabbix_create_params Sim.api Sim.py Sim.handle
           "host-b" "10.0.0.2" ["10001"] (Some "2") form_v2
           (Sim.world server_with_group)
           (mkOutcome "host-b" "10.0.0.2" "success"
              "Host criado com sucesso (ID: 10084)")
           (snd (create_host_in_zabbix Sim.api Sim.py Sim.handle "host-b"
                   "10.0.0.2" ["10001"] (Some "2") form_v2
                   (Sim.world server_with_group)))
           p).
  - vm_compute. reflexivity.
  - exists [CHostGet "host-b"; CHostgroupGet (Some "Imported Hosts")], [].
    vm_compute. reflexivity.
Defined.

(** X9 on a form whose security level is a word. *)
Lemma create_host_in_zabbix_bad_securitylevel_witness :
  exists message w',
    create_host_in_zabbix Sim.api Sim.py Sim.handle "host-b" "10.0.0.2"
      ["10001"] (Some "3") form_v3_bad_level (Sim.world server_with_group)
      = (Ok (mkOutcome "host-b" "10.0.0.2" "error" message), w')
    /\ calls w' = calls (Sim.world server_with_group)
                    ++ [CHostGet "host-b"]
    /\ failures w' = failures (Sim.world server_with_group)
    /\ remote w' = server_with_group.
Proof.
  apply (create_host_in_zabbix_bad_securitylevel Sim.api Sim.py Sim.handle
           "host-b" "10.0.0.2" ["10001"] form_v3_bad_level
           (Sim.world server_with_group) server_with_group "authPriv").
  - vm_compute. reflexivity.
  - vm_compute. reflexivity.
  - vm_compute. reflexivity.
Defined.

(** X10 on a server that fails after the device lookup. *)
Lemma create_host_in_zabbix_group_unavailable_witness :
  exists w',
    create_host_in_zabbix Sim.api Sim.py Sim.handle "host-b" "10.0.0.2"
      ["10001"] None form_no_version (Sim.world server_down_after_lookup)
      = (Ok (mkOutcome "host-b" "10.0.0.2" "error"
               (str (ConnectionError "Connection refused"))), w')
    /\ calls w' = calls (Sim.world server_down_after_lookup)
                    ++ [CHostGet "host-b";
                        CHostgroupGet (Some "Imported Hosts");
                        CHostgroupGet None]
    /\ remote w' = Sim.set_faults [] server_down_after_lookup.
Proof.
  apply (create_host_in_zabbix_group_unavailable Sim.api Sim.py Sim.handle
           "host-b" "10.0.0.2" ["10001"] None form_no_version
           (Sim.world server_down_after_lookup)
           (Sim.set_faults [true; true] server_down_after_lookup)
           (mkInterface 2 1 1 "10.0.0.2" EmptyString "161"
              (plain_details None))
           (ConnectionError "Connection refused")
           (Sim.set_faults [true] server_down_after_lookup)
           (ConnectionError "Connection refused")
           (Sim.set_faults [] server_down_after_lookup)).
  - vm_compute. reflexivity.
  - vm_compute. reflexivity.
  - vm_compute. reflexivity.
  - vm_compute. reflexivity.
Defined.

(** X12 on an upload named [hosts.xlsx]. *)
Lemma import_hosts_rejects_bad_upload_witness :
  exists message w',
    import_hosts Sim.api Sim.py
      (mkRequest (Some upload_spreadsheet) form_v2) (Sim.world Sim.server0)
      = (Ok (Redirect "index"), w')
    /\ flashes w' = flashes (Sim.world Sim.server0)
                      ++ [(message, "error")]
    /\ message ∈ ["Nenhum arquivo enviado"; "Nenhum arquivo selecionado";
                  "Por favor, envie um arquivo CSV"]
    /\ files w' = files (Sim.world Sim.server0)
    /\ calls w' = calls (Sim.world Sim.server0)
    /\ remote w' = remote (Sim.world Sim.server0).
Proof.
  apply (import_hosts_rejects_bad_upload Sim.api Sim.py
           (mkRequest (Some upload_spreadsheet) form_v2)
           (Sim.world Sim.server0)).
  right. exists upload_spreadsheet. split; [reflexivity|].
  right. vm_compute. reflexivity.
Defined.

(** X13 on an upload without any line. *)
Lemma import_hosts_unreadable_csv_keeps_upload_witness :
  exists w',
    import_hosts Sim.api Sim.py (mkRequest (Some upload_empty) form_v2)
      (Sim.world Sim.server0) = (Ok (Redirect "index"), w')
    /\ flashes w' = flashes (Sim.world Sim.server0)
                      ++ [("Erro ao processar importação: "
                             +:+ str (ValueError
                                        "No columns to parse from file"),
                           "error")]
    /\ files w' = <[path_join UPLOAD_FOLDER
                      (secure_filename Sim.py (filename upload_empty)) :=
                      content upload_empty]>
                    (files (Sim.world Sim.server0))
    /\ calls w' = calls (Sim.world Sim.server0).
Proof.
  apply (import_hosts_unreadable_csv_keeps_upload Sim.api Sim.py
           (mkRequest (Some upload_empty) form_v2) (Sim.world Sim.server0)
           upload_empty (ValueError "No columns to parse from file")).
  - reflexivity.
  - discriminate.
  - vm_compute. reflexivity.
  - vm_compute. reflexivity.
Defined.

(** X14 on the two-row table. *)
Lemma import_hosts_removes_upload_witness :
  exists response w',
    import_hosts Sim.api Sim.py (mkRequest (Some upload_two_hosts) form_v2)
      (Sim.world server_with_host_a) = (Ok response, w')
    /\ files w' = delete (path_join UPLOAD_FOLDER
                            (secure_filename Sim.py
                               (filename upload_two_hosts)))
                         (files (Sim.world server_with_host_a)).
Proof.
  apply (import_hosts_removes_upload Sim.api Sim.py
           (mkRequest (Some upload_two_hosts) form_v2)
           (Sim.world server_with_host_a) upload_two_hosts df_two_hosts).
  - reflexivity.
  - discriminate.
  - vm_compute. reflexivity.
  - vm_compute. reflexivity.
  - repeat constructor.
Defined.

(** X15 on the two-row table. *)
Lemma import_hosts_renders_every_row_witness :
  exists results w',
    import_hosts Sim.api Sim.py (mkRequest (Some upload_two_hosts) form_v2)
      (connected_world server_with_host_a)
      = (Ok (Render results (count_success results)
               (length results - count_success results)), w')
    /\ length results = length (data df_two_hosts)
    /\ map outcome_key results = map row_key (iterrows df_two_hosts)
    /\ count_success results + (length results - count_success results)
       = length (data df_two_hosts).
Proof.
  apply (import_hosts_renders_every_row Sim.api Sim.py
           (mkRequest (Some upload_two_hosts) form_v2)
           (connected_world server_with_host_a) upload_two_hosts
           df_two_hosts "10001" [] Sim.handle
           (set_files (<[path_join UPLOAD_FOLDER
                           (secure_filename Sim.py
                              (filename upload_two_hosts)) :=
                           content upload_two_hosts]>
                         (files (connected_world server_with_host_a)))
                      (connected_world server_with_host_a))).
  - reflexivity.
  - discriminate.
  - vm_compute. reflexivity.
  - vm_compute. reflexivity.
  - split; [reflexivity | repeat constructor].
  - vm_compute. reflexivity.
  - vm_compute. reflexivity.
Defined.

(** X16 on a server that refuses the fixed credentials. *)
Lemma import_hosts_connection_refused_witness :
  exists w',
    import_hosts Sim.api Sim.py (mkRequest (Some upload_two_hosts) form_v2)
      (Sim.world server_other_password) = (Ok (Redirect "index"), w')
    /\ flashes w' = flashes (Sim.world server_other_password)
                      ++ [("Erro ao conectar ao Zabbix", "error")]
    /\ calls w' = calls (Sim.world server_other_password)
                    ++ [CLogin ZABBIX_USER ZABBIX_PASSWORD]
    /\ files w' = delete (path_join UPLOAD_FOLDER
                            (secure_filename Sim.py
                               (filename upload_two_hosts)))
                         (files (Sim.world server_other_password)).
Proof.
  apply (import_hosts_connection_refused Sim.api Sim.py
           (mkRequest (Some upload_two_hosts) form_v2)
           (Sim.world server_other_password) upload_two_hosts df_two_hosts
           "10001" []
           (ZabbixAPIException "Login name or password is incorrect.")
           server_other_password).
  - reflexivity.
  - discriminate.
  - vm_compute. reflexivity.
  - vm_compute. reflexivity.
  - reflexivity.
  - vm_compute. reflexivity.
  - reflexivity.
  - vm_compute. reflexivity.
Defined.

(** X17 on a connected process. *)
Lemma views_keep_cached_handle_witness :
  zabbix (snd (import_hosts Sim.api Sim.py
                 (mkRequest (Some upload_two_hosts) form_v2)
                 (connected_world server_with_host_a))) = Some Sim.handle
  /\ zabbix (snd (get_templates Sim.api
                   (connected_world server_with_host_a))) = Some Sim.handle
  /\ zabbix (snd (test_connection Sim.api
                   (connected_world server_with_host_a)))
     = Some Sim.handle.
Proof.
  apply (views_keep_cached_handle Sim.api Sim.py
           (mkRequest (Some upload_two_hosts) form_v2)
           (connected_world server_with_host_a) Sim.handle).
  reflexivity.
Defined.

(** X18 on the two-row table. *)
Lemma import_hosts_never_raises_witness :
  exists response w',
    import_hosts Sim.api Sim.py (mkRequest (Some upload_two_hosts) form_v2)
      (Sim.world server_with_host_a) = (Ok response, w')
    /\ ((response = Redirect "index"
         /\ exists messages,
             messages <> []
             /\ flashes w' = flashes (Sim.world server_with_host_a)
                               ++ messages
             /\ Forall (fun m => m.2 = "error") messages)
        \/ (exists results,
              response = Render results (count_success results)
                           (length results - count_success results)
              /\ flashes w' = flashes (Sim.world server_with_host_a))).
Proof.
  apply (import_hosts_never_raises Sim.api Sim.py
           (mkRequest (Some upload_two_hosts) form_v2)
           (Sim.world server_with_host_a)).
Defined.

(** X19 on the two-row table. *)
Lemma import_loop_requests_in_file_order_witness :
  exists results w' new,
    import_loop Sim.api Sim.py Sim.handle ["10001"] (Some "2") form_v2
      (iterrows df_two_hosts) [] (Sim.world server_with_host_a)
      = (Ok results, w')
    /\ calls w' = calls (Sim.world server_with_host_a) ++ new
    /\ looked_up new = map nome results
    /\ count_success results <= length (List.filter is_host_create new)
    /\ length (List.filter is_host_create new)
       <= length (data df_two_hosts).
Proof.
  apply (import_loop_requests_in_file_order Sim.api Sim.py Sim.handle
           ["10001"] (Some "2") form_v2 df_two_hosts
           (Sim.world server_with_host_a)).
  split; [reflexivity | repeat constructor].
Defined.

(** X20 on a file that has only its header. *)
Lemma import_hosts_empty_table_witness :
  exists w',
    import_hosts Sim.api Sim.py
      (mkRequest (Some upload_header_only) form_v2)
      (connected_world Sim.server0) = (Ok (Render [] 0 0), w')
    /\ calls w' = calls (connected_world Sim.server0)
    /\ flashes w' = flashes (connected_world Sim.server0)
    /\ files w' = delete (path_join UPLOAD_FOLDER
                            (secure_filename Sim.py
                               (filename upload_header_only)))
                         (files (connected_world Sim.server0)).
Proof.
  apply (import_hosts_empty_table Sim.api Sim.py
           (mkRequest (Some upload_header_only) form_v2)
           (connected_world Sim.server0) upload_header_only df_header_only
           "10001" [] Sim.handle).
  - reflexivity.
  - discriminate.
  - vm_compute. reflexivity.
  - vm_compute. reflexivity.
  - reflexivity.
  - reflexivity.
  - vm_compute. reflexivity.
  - reflexivity.
Defined.
End ConcreteExtras.
